(** * Session layer of the Bolt driver: a shallow embedding

    The development follows [sessionWithContext] of package [neo4j]: the
    session record, the pre-flight of every operation, bookmark
    propagation, home database resolution, connection acquisition and the
    managed-transaction retry loop; then the request loop and the error
    registry of the testkit backend.  Collaborators the session only sees
    through a Go interface (router, pool, connection, clock) are type
    classes over an abstract state [X] of the outside world; every call the
    session makes on them is recorded, with its arguments and its result,
    in a call log.  Error logging is such a call; debug logging is left
    out. *)

From Stdlib Require Import ZArith Lia Ascii.
From stdpp Require Import base option list strings gmap pretty.

Set Warnings "-register-all".

Local Open Scope Z_scope.

(** ** Plain data *)

(** [time.Duration]: a signed count of nanoseconds. *)
Definition Duration := Z.

Definition Second : Duration := 1000000000.

(** [math.MinInt] on a 64-bit platform; the "timeout not set" sentinel. *)
Definition MinInt : Z := - 2 ^ 63.

(** Values carried by Bolt metadata maps ([interface{}] in the source). *)
Inductive Value :=
| VNull
| VBool (b : bool)
| VInt (i : Z)
| VFloat (mantissa exponent : Z)
| VString (s : string)
| VList (l : list Value)
| VMap (m : list (string * Value)).

(** The error kinds of the driver. *)
Inductive Error :=
| UsageError (Message : string)
| ConnectivityError (inner : Error)
| TransactionExecutionLimit (Errors : list Error) (Causes : list string)
| Neo4jError (Code Msg : string)
| OtherError (text : string).

Definition isUsageError (e : Error) : bool :=
  match e with UsageError _ => true | _ => false end.

Definition isTransactionExecutionLimit (e : Error) : bool :=
  match e with TransactionExecutionLimit _ _ => true | _ => false end.

Inductive AccessMode := WriteMode | ReadMode.

Definition AccessMode_eqb (a b : AccessMode) : bool :=
  match a, b with
  | WriteMode, WriteMode | ReadMode, ReadMode => true
  | _, _ => false
  end.

(** [context.Context], reduced to what the session uses of it: the
    deadline, an absolute instant in nanoseconds. *)
Record Context := mkContext { ctx_deadline : option Z }.

Definition Background : Context := mkContext None.

(** [context.WithTimeout(parent, d)] taken at instant [now]: the deadline is
    [now + d] unless the parent already expires earlier. *)
Definition context_WithTimeout (now : Z) (parent : Context) (d : Duration) : Context :=
  mkContext (Some (match ctx_deadline parent with
                   | Some p => Z.min p (now + d)
                   | None => now + d
                   end)).

Definition ConnId := nat.
Definition TxHandle := nat.
Definition StreamHandle := nat.

(** [idb.DefaultDatabase], declared in the internal [db] package: the
    empty name. *)
Definition DefaultDatabase : string := "".

(** [pool.DefaultLivenessCheckThreshold], declared in the pool package:
    the largest duration.  The session only passes it on. *)
Definition DefaultLivenessCheckThreshold : Duration := 2 ^ 63 - 1.

Definition FetchAll : Z := -1.
Definition FetchDefault : Z := 0.

Record TransactionConfig := mkTransactionConfig {
  Timeout : Duration;
  Metadata : list (string * Value)
}.

(** [idb.TxConfig], the transaction configuration handed to a connection. *)
Record TxConfig := mkTxConfig {
  tc_Mode : AccessMode;
  tc_Bookmarks : list string;
  tc_Timeout : Duration;
  tc_Meta : list (string * Value);
  tc_ImpersonatedUser : string
}.

Record Command := mkCommand {
  Cypher : string;
  Params : list (string * Value);
  cmd_FetchSize : Z
}.

Record Config := mkConfig {
  cfg_FetchSize : Z;
  ConnectionAcquisitionTimeout : Duration;
  MaxTransactionRetryTime : Duration;
  MaxConnectionPoolSize : Z
}.

Record SessionConfig := mkSessionConfig {
  sc_AccessMode : AccessMode;
  sc_Bookmarks : list string;
  sc_DatabaseName : string;
  sc_FetchSize : Z;
  sc_ImpersonatedUser : string
}.

(** The explicit transaction as the session builds it; [et_ctx] is the
    context captured by its [onClosed] closure. *)
Record explicitTransaction := mkExplicitTransaction {
  et_conn : ConnId;
  et_fetchSize : Z;
  et_txHandle : TxHandle;
  et_ctx : Context
}.

Record resultWithContext := mkResult {
  res_conn : ConnId;
  res_stream : StreamHandle;
  res_cypher : string;
  res_params : list (string * Value)
}.

Record autocommitTransaction := mkAutocommitTransaction {
  at_conn : ConnId;
  at_res : resultWithContext;
  at_ctx : Context
}.

Record managedTransaction := mkManagedTransaction {
  mt_conn : ConnId;
  mt_fetchSize : Z;
  mt_txHandle : TxHandle
}.

(** [sessionWithContext].  The fields [pool], [router], [sleep], [now] and
    the loggers are the collaborators of the classes below. *)
Record sessionWithContext := mkSession {
  config : Config;
  defaultMode : AccessMode;
  bookmarks : list string;
  databaseName : string;
  impersonatedUser : string;
  resolveHomeDb : bool;
  explicitTx : option explicitTransaction;
  autocommitTx : option autocommitTransaction;
  throttleTime : Duration;
  fetchSize : Z
}.

Definition set_bookmarks (b : list string) (s : sessionWithContext) : sessionWithContext :=
  mkSession (config s) (defaultMode s) b (databaseName s) (impersonatedUser s)
            (resolveHomeDb s) (explicitTx s) (autocommitTx s) (throttleTime s) (fetchSize s).

Definition set_resolved (db : string) (s : sessionWithContext) : sessionWithContext :=
  mkSession (config s) (defaultMode s) (bookmarks s) db (impersonatedUser s)
            false (explicitTx s) (autocommitTx s) (throttleTime s) (fetchSize s).

Definition set_explicitTx (t : option explicitTransaction) (s : sessionWithContext) : sessionWithContext :=
  mkSession (config s) (defaultMode s) (bookmarks s) (databaseName s) (impersonatedUser s)
            (resolveHomeDb s) t (autocommitTx s) (throttleTime s) (fetchSize s).

Definition set_autocommitTx (t : option autocommitTransaction) (s : sessionWithContext) : sessionWithContext :=
  mkSession (config s) (defaultMode s) (bookmarks s) (databaseName s) (impersonatedUser s)
            (resolveHomeDb s) (explicitTx s) t (throttleTime s) (fetchSize s).

(** ** Pure functions of the session *)

(** The first loop of [cleanupBookmarks]: is there an empty bookmark?  The
    scan stops at the first one. *)
Fixpoint hasBad (bs : list string) : bool :=
  match bs with
  | [] => false
  | b :: rest => if Nat.eqb (String.length b) 0 then true else hasBad rest
  end.

(** The second loop: append every bookmark of positive length. *)
Fixpoint cleaned (acc bs : list string) : list string :=
  match bs with
  | [] => acc
  | b :: rest =>
      if Nat.ltb 0 (String.length b) then cleaned (acc ++ [b]) rest
      else cleaned acc rest
  end.

Definition cleanupBookmarks (bs : list string) : list string :=
  if negb (hasBad bs) then bs else cleaned [] bs.

Definition newSessionWithContext (cfg : Config) (sessConfig : SessionConfig) : sessionWithContext :=
  let fetchSize :=
    if negb (Z.eqb (sc_FetchSize sessConfig) FetchDefault)
    then sc_FetchSize sessConfig else cfg_FetchSize cfg in
  {| config := cfg;
     defaultMode := sc_AccessMode sessConfig;
     bookmarks := cleanupBookmarks (sc_Bookmarks sessConfig);
     databaseName := sc_DatabaseName sessConfig;
     impersonatedUser := sc_ImpersonatedUser sessConfig;
     resolveHomeDb := String.eqb (sc_DatabaseName sessConfig) "";
     explicitTx := None;
     autocommitTx := None;
     throttleTime := Second * 1;
     fetchSize := fetchSize |}.

Definition defaultTransactionConfig : TransactionConfig :=
  mkTransactionConfig MinInt [].

(** The variadic [configurers], each a function updating the transaction
    configuration in place, applied in order to the default configuration. *)
Definition applyConfigurers (configurers : list (TransactionConfig -> TransactionConfig))
  : TransactionConfig :=
  fold_left (fun c f => f c) configurers defaultTransactionConfig.

Definition negativeTimeoutMessage (t : Duration) : string :=
  "Negative transaction timeouts are not allowed. Given: " +:+ pretty t.

Definition validateTransactionConfig (c : TransactionConfig) : option Error :=
  if negb (Z.eqb (Timeout c) MinInt) && Z.ltb (Timeout c) 0
  then Some (UsageError (negativeTimeoutMessage (Timeout c)))
  else None.

(** ** The receive-timeout hint of HELLO *)

Definition readTimeoutHintName : string := "connection.recv_timeout_seconds".

(** Modelled from the spec: the handling of the HELLO success metadata in
    the connection (it lives in [bolt5.go]; only the connection's test
    exercises it here).  Only a positive integer hint is accepted; every
    other shape leaves the read timeout as it was.  The result is the
    mathematical number of nanoseconds. *)
Definition initializeReadTimeoutHint (hints : gmap string Value) (connReadTimeout : Duration)
  : Duration :=
  match hints !! readTimeoutHintName with
  | Some (VInt readTimeout) =>
      if Z.leb readTimeout 0 then connReadTimeout else readTimeout * Second
  | _ => connReadTimeout
  end.

(** The read timeout a connection starts with: disabled. *)
Definition defaultReadTimeout : Duration := -1.

Definition connReadTimeoutAfterHello (hints : gmap string Value) : Duration :=
  initializeReadTimeoutHint hints defaultReadTimeout.

(** ** The outside world *)

(** What the retry coordinator makes of a failure. *)
Inductive FailureClass :=
| RetryableTransient
| RetryableConnectivity
| DeadConnection
| Fatal
| UsageFailure
| TokenExpired
| ExecutionLimit.

Record ServerInfo := mkServerInfo {
  address : string;
  agent : string;
  protocolVersion : Z * Z
}.

(** Every call the session makes on a collaborator, with its result. *)
Inductive Call :=
| CallGetNameOfDefaultDatabase (ctx : Context) (bms : list string) (user : string)
                               (res : Error + string)
| CallReaders (ctx : Context) (bms : list string) (db : string) (res : Error + list string)
| CallWriters (ctx : Context) (bms : list string) (db : string) (res : Error + list string)
| CallInvalidateReader (ctx : Context) (db server : string) (res : option Error)
| CallInvalidateWriter (ctx : Context) (db server : string) (res : option Error)
| CallBorrow (ctx : Context) (servers : list string) (wait : bool) (liveness : Duration)
             (res : Error + ConnId)
| CallReturn (ctx : Context) (c : ConnId) (res : option Error)
| CallBookmark (c : ConnId) (res : string)
| CallSelectDatabase (c : ConnId) (db : string)
| CallTxBegin (ctx : Context) (c : ConnId) (cfg : TxConfig) (res : Error + TxHandle)
| CallTxCommit (ctx : Context) (c : ConnId) (h : TxHandle) (res : option Error)
| CallRun (ctx : Context) (c : ConnId) (cmd : Command) (cfg : TxConfig)
          (res : Error + StreamHandle)
| CallConsume (ctx : Context) (c : ConnId) (str : StreamHandle) (res : option Error)
| CallWork (tx : managedTransaction) (res : Error + Value)
| CallSleep (d : Duration)
| CallLogError (e : Error).

(** [sessionRouter], the router as the session sees it. *)
Class sessionRouter (X : Type) := {
  router_Readers : Context -> list string -> string -> X -> (Error + list string) * X;
  router_Writers : Context -> list string -> string -> X -> (Error + list string) * X;
  router_GetNameOfDefaultDatabase :
    Context -> list string -> string -> X -> (Error + string) * X;
  router_InvalidateReader : Context -> string -> string -> X -> option Error * X;
  router_InvalidateWriter : Context -> string -> string -> X -> option Error * X
}.

(** [sessionPool], the connection pool as the session sees it.  A borrow
    that reports no error yields a connection. *)
Class sessionPool (X : Type) := {
  pool_Borrow : Context -> list string -> bool -> Duration -> X -> (Error + ConnId) * X;
  pool_Return : Context -> ConnId -> X -> option Error * X
}.

(** [idb.Connection], the part of it the session calls.
    [conn_isDatabaseSelector] is the type assertion to [idb.DatabaseSelector]. *)
Class Connection (X : Type) := {
  conn_Bookmark : ConnId -> X -> string;
  conn_TxBegin : Context -> ConnId -> TxConfig -> X -> (Error + TxHandle) * X;
  conn_TxCommit : Context -> ConnId -> TxHandle -> X -> option Error * X;
  conn_Run : Context -> ConnId -> Command -> TxConfig -> X -> (Error + StreamHandle) * X;
  conn_Consume : Context -> ConnId -> StreamHandle -> X -> option Error * X;
  conn_isDatabaseSelector : ConnId -> bool;
  conn_SelectDatabase : ConnId -> string -> X -> X;
  conn_ServerName : ConnId -> X -> string;
  conn_ServerVersion : ConnId -> X -> string;
  conn_Version : ConnId -> X -> Z * Z
}.

(** The clock, the injected [now] and [sleep] of the session, the error
    wrapper of the package and the failure classifier of the retry
    coordinator; none of them is defined in the session's file. *)
Class Runtime (X : Type) := {
  time_Now : X -> Z;
  sess_now : X -> Z;
  sess_sleep : Duration -> X -> X;
  wrapError : Error -> Error;
  classify : option ConnId -> Error -> bool -> X -> FailureClass;
  inferredCause : FailureClass -> string;
  throttleDelay : Duration -> X -> Duration
}.

(** A unit of work of a managed transaction: user code driving the
    connection of the transaction it is given. *)
Definition ManagedTransactionWork (X : Type) : Type :=
  managedTransaction -> X -> (Error + Value) * X.

(** ** The state monad of the session *)

Record World (X : Type) := mkWorld {
  sess : sessionWithContext;
  ext : X;
  calls : list Call
}.
Arguments mkWorld {X} _ _ _.
Arguments sess {X} _.
Arguments ext {X} _.
Arguments calls {X} _.

Definition M (X A : Type) : Type := World X -> A * World X.

Definition ret {X A} (a : A) : M X A := fun w => (a, w).

Definition bind {X A B} (m : M X A) (k : A -> M X B) : M X B :=
  fun w => let (a, w') := m w in k a w'.

Notation "'let*' x ':=' m 'in' k" := (bind m (fun x => k))
  (at level 10, x name, m at level 100, k at level 200).
Notation "'let*' ' p ':=' m 'in' k" := (bind m (fun p => k))
  (at level 10, p pattern, m at level 100, k at level 200).
Notation "m ';;;' k" := (bind m (fun _ => k))
  (at level 100, k at level 200, right associativity).

Definition get_sess {X} : M X sessionWithContext := fun w => (sess w, w).

Definition modify_sess {X} (f : sessionWithContext -> sessionWithContext) : M X unit :=
  fun w => (tt, mkWorld (f (sess w)) (ext w) (calls w)).

(** Read the outside world without changing it. *)
Definition observe {X A} (f : X -> A) : M X A := fun w => (f (ext w), w).

(** Call a collaborator: run it on the outside world and log the call. *)
Definition call {X A} (f : X -> A * X) (ev : A -> Call) : M X A :=
  fun w => let (a, x') := f (ext w) in
           (a, mkWorld (sess w) x' (calls w ++ [ev a])).

Definition logError {X} (e : Error) : M X unit :=
  fun w => (tt, mkWorld (sess w) (ext w) (calls w ++ [CallLogError e])).

(** ** The session's operations *)

Module retry.

(** Modelled from the spec: the state of the retry coordinator
    (package [internal/retry], which the session only calls).  The fields
    [MaxTransactionRetryTime], [Throttle], [MaxDeadConnections],
    [DatabaseName], [LastErrWasRetryable], [LastErr], [Errs] and [Causes]
    are the ones the session sets or reads; [start] and [cause] carry the
    instant of the first failure and the inferred cause of the last one. *)
Record State := mkState {
  Errs : list Error;
  Causes : list string;
  MaxTransactionRetryTime : Duration;
  Throttle : Duration;
  MaxDeadConnections : Z;
  DatabaseName : string;
  LastErrWasRetryable : bool;
  LastErr : option Error;
  start : option Z;
  cause : string
}.

(** The classes after which the coordinator tries again. *)
Definition retryable (c : FailureClass) : bool :=
  match c with
  | RetryableTransient | RetryableConnectivity | DeadConnection => true
  | _ => false
  end.

Definition failed (st : State) (err : Error) (c : FailureClass) (cause : string) (now : Z)
  : State :=
  mkState (Errs st) (Causes st) (MaxTransactionRetryTime st) (Throttle st)
          (MaxDeadConnections st) (DatabaseName st)
          (retryable c) (Some err)
          (match start st with Some t => Some t | None => Some now end)
          cause.

(** The last error joins the observed errors, its cause (if one was
    inferred) the causes. *)
Definition tracked (st : State) (err : Error) : State :=
  mkState (Errs st ++ [err])
          (if String.eqb (cause st) "" then Causes st else Causes st ++ [cause st])
          (MaxTransactionRetryTime st) (Throttle st)
          (MaxDeadConnections st) (DatabaseName st)
          (LastErrWasRetryable st) (LastErr st) (start st) (cause st).

(** Backoff: the delay doubles, capped by the retry time. *)
Definition throttled (st : State) : State :=
  mkState (Errs st) (Causes st) (MaxTransactionRetryTime st)
          (Z.min (2 * Throttle st) (MaxTransactionRetryTime st))
          (MaxDeadConnections st) (DatabaseName st)
          (LastErrWasRetryable st) (LastErr st) (start st) (cause st).

(** The retry deadline, counted from the first failure. *)
Definition deadlineExceeded (st : State) (now : Z) : bool :=
  match start st with
  | Some t => Z.ltb (MaxTransactionRetryTime st) (now - t)
  | None => false
  end.

End retry.

Section Session.

Context {X : Type}.
Context `{!sessionRouter X, !sessionPool X, !Connection X, !Runtime X}.

#[local] Abbreviation M := (M X).

Definition retrieveBookmarks (conn : option ConnId) : M unit :=
  match conn with
  | None => ret tt
  | Some c =>
      let* bookmark := call (fun x => (conn_Bookmark c x, x)) (CallBookmark c) in
      if Nat.ltb 0 (String.length bookmark)
      then modify_sess (set_bookmarks [bookmark])
      else ret tt
  end.

Definition resolveHomeDatabase (ctx : Context) : M (option Error) :=
  let* s := get_sess in
  if negb (resolveHomeDb s) then ret None
  else
    let* r := call (router_GetNameOfDefaultDatabase ctx (bookmarks s) (impersonatedUser s))
                   (CallGetNameOfDefaultDatabase ctx (bookmarks s) (impersonatedUser s)) in
    match r with
    | inl err => ret (Some err)
    | inr defaultDb => modify_sess (set_resolved defaultDb) ;;; ret None
    end.

Definition getServers (ctx : Context) (mode : AccessMode) : M (Error + list string) :=
  let* s := get_sess in
  if AccessMode_eqb mode ReadMode
  then call (router_Readers ctx (bookmarks s) (databaseName s))
            (CallReaders ctx (bookmarks s) (databaseName s))
  else call (router_Writers ctx (bookmarks s) (databaseName s))
            (CallWriters ctx (bookmarks s) (databaseName s)).

(** The context under which [getConnection] works: the caller's, or one
    derived from it with the acquisition timeout when that is positive. *)
Definition acquisitionContext (ctx : Context) : M Context :=
  let* s := get_sess in
  if Z.ltb 0 (ConnectionAcquisitionTimeout (config s))
  then let* now := observe time_Now in
       ret (context_WithTimeout now ctx (ConnectionAcquisitionTimeout (config s)))
  else ret ctx.

Definition getConnection (ctx : Context) (mode : AccessMode)
           (livenessCheckThreshold : Duration) : M (Error + ConnId) :=
  let* ctx := acquisitionContext ctx in
  let* e := resolveHomeDatabase ctx in
  match e with
  | Some err => ret (inl (wrapError err))
  | None =>
      let* r := getServers ctx mode in
      match r with
      | inl err => ret (inl (wrapError err))
      | inr servers =>
          let* s := get_sess in
          let wait := negb (Z.eqb (ConnectionAcquisitionTimeout (config s)) 0) in
          let* r := call (pool_Borrow ctx servers wait livenessCheckThreshold)
                         (CallBorrow ctx servers wait livenessCheckThreshold) in
          match r with
          | inl err => ret (inl (wrapError err))
          | inr conn =>
              let* s := get_sess in
              if negb (String.eqb (databaseName s) DefaultDatabase) then
                if negb (conn_isDatabaseSelector conn) then
                  call (pool_Return ctx conn) (CallReturn ctx conn) ;;;
                  ret (inl (UsageError "Database does not support multi-database"))
                else
                  call (fun x => (tt, conn_SelectDatabase conn (databaseName s) x))
                       (fun _ => CallSelectDatabase conn (databaseName s)) ;;;
                  ret (inr conn)
              else ret (inr conn)
          end
      end
  end.

(** The [onClosed] closure [Run] gives the auto-commit transaction. *)
Definition autocommit_onClosed (tx : autocommitTransaction) : M unit :=
  retrieveBookmarks (Some (at_conn tx)) ;;;
  call (pool_Return (at_ctx tx) (at_conn tx)) (CallReturn (at_ctx tx) (at_conn tx)) ;;;
  modify_sess (set_autocommitTx None).

(** The [onClosed] closure [BeginTransaction] gives the explicit
    transaction; commit, rollback and close of the transaction end in it. *)
Definition explicit_onClosed (tx : explicitTransaction) : M unit :=
  retrieveBookmarks (Some (et_conn tx)) ;;;
  call (pool_Return (et_ctx tx) (et_conn tx)) (CallReturn (et_ctx tx) (et_conn tx)) ;;;
  modify_sess (set_explicitTx None).

(** Modelled from the spec: [autocommitTransaction.done], defined with the
    transaction types in another file.  A pending auto-commit transaction
    is closed:
    its stream is discarded on the connection and its [onClosed] closure
    runs, which returns the connection. *)
Definition autocommit_done (ctx : Context) (tx : autocommitTransaction) : M unit :=
  call (conn_Consume ctx (at_conn tx) (res_stream (at_res tx)))
       (CallConsume ctx (at_conn tx) (res_stream (at_res tx))) ;;;
  autocommit_onClosed tx.

(** [if s.autocommitTx != nil { s.autocommitTx.done(ctx) }] *)
Definition finishPendingAutocommit (ctx : Context) : M unit :=
  let* s := get_sess in
  match autocommitTx s with
  | Some tx => autocommit_done ctx tx
  | None => ret tt
  end.

Definition LastBookmarks : M (list string) :=
  let* s := get_sess in
  match autocommitTx s with
  | Some tx => retrieveBookmarks (Some (at_conn tx))
  | None => ret tt
  end ;;;
  let* s := get_sess in
  ret (bookmarks s).

Definition lastBookmark : M string :=
  let* s := get_sess in
  match autocommitTx s with
  | Some tx => retrieveBookmarks (Some (at_conn tx))
  | None => ret tt
  end ;;;
  let* s := get_sess in
  ret (List.last (bookmarks s) "").

Definition sessionTxConfig (s : sessionWithContext) (mode : AccessMode)
           (c : TransactionConfig) : TxConfig :=
  mkTxConfig mode (bookmarks s) (Timeout c) (Metadata c) (impersonatedUser s).

Definition BeginTransaction (ctx : Context)
           (configurers : list (TransactionConfig -> TransactionConfig))
  : M (Error + explicitTransaction) :=
  let* s := get_sess in
  match explicitTx s with
  | Some _ =>
      let err := UsageError "Session already has a pending transaction" in
      logError err ;;; ret (inl err)
  | None =>
      finishPendingAutocommit ctx ;;;
      let config := applyConfigurers configurers in
      match validateTransactionConfig config with
      | Some err => ret (inl err)
      | None =>
          let* s := get_sess in
          let* r := getConnection ctx (defaultMode s) DefaultLivenessCheckThreshold in
          match r with
          | inl err => ret (inl err)
          | inr conn =>
              let* s := get_sess in
              let txc := sessionTxConfig s (defaultMode s) config in
              let* r := call (conn_TxBegin ctx conn txc) (CallTxBegin ctx conn txc) in
              match r with
              | inl err =>
                  call (pool_Return ctx conn) (CallReturn ctx conn) ;;;
                  ret (inl (wrapError err))
              | inr txHandle =>
                  let tx := mkExplicitTransaction conn (fetchSize s) txHandle ctx in
                  modify_sess (set_explicitTx (Some tx)) ;;;
                  ret (inr tx)
              end
          end
      end
  end.

Definition Run (ctx : Context) (cypher : string) (params : list (string * Value))
           (configurers : list (TransactionConfig -> TransactionConfig))
  : M (Error + resultWithContext) :=
  let* s := get_sess in
  match explicitTx s with
  | Some _ =>
      let err :=
        UsageError "Trying to run auto-commit transaction while in explicit transaction" in
      logError err ;;; ret (inl err)
  | None =>
      finishPendingAutocommit ctx ;;;
      let config := applyConfigurers configurers in
      match validateTransactionConfig config with
      | Some err => ret (inl err)
      | None =>
          let* s := get_sess in
          let* r := getConnection ctx (defaultMode s) DefaultLivenessCheckThreshold in
          match r with
          | inl err => ret (inl err)
          | inr conn =>
              let* s := get_sess in
              let cmd := mkCommand cypher params (fetchSize s) in
              let txc := sessionTxConfig s (defaultMode s) config in
              let* r := call (conn_Run ctx conn cmd txc) (CallRun ctx conn cmd txc) in
              match r with
              | inl err =>
                  call (pool_Return ctx conn) (CallReturn ctx conn) ;;;
                  ret (inl (wrapError err))
              | inr stream =>
                  let res := mkResult conn stream cypher params in
                  let tx := mkAutocommitTransaction conn res ctx in
                  modify_sess (set_autocommitTx (Some tx)) ;;;
                  ret (inr res)
              end
          end
      end
  end.

(** The [OnDeadConnection] closure of [runRetriable]. *)
Definition OnDeadConnection (ctx : Context) (mode : AccessMode) (server : string)
  : M (option Error) :=
  let* s := get_sess in
  if AccessMode_eqb mode WriteMode
  then call (router_InvalidateWriter ctx (databaseName s) server)
            (CallInvalidateWriter ctx (databaseName s) server)
  else call (router_InvalidateReader ctx (databaseName s) server)
            (CallInvalidateReader ctx (databaseName s) server).

(** Modelled from the spec: [retry.State.OnFailure], of package
    [internal/retry].  The failure is classified; it becomes the last
    error, retryable or not by its class, with its inferred cause; a dead
    connection is reported through [OnDeadConnection]. *)
Definition OnFailure (ctx : Context) (mode : AccessMode) (st : retry.State)
           (conn : option ConnId) (err : Error) (isCommitting : bool) : M retry.State :=
  let* class := observe (classify conn err isCommitting) in
  let* now := observe sess_now in
  let st' := retry.failed st err class (inferredCause class) now in
  match class, conn with
  | DeadConnection, Some c =>
      let* server := observe (conn_ServerName c) in
      OnDeadConnection ctx mode server ;;;
      ret st'
  | _, _ => ret st'
  end.

(** Modelled from the spec: [retry.State.Continue], of package
    [internal/retry].  Before any failure the loop goes on.  After a failure
    the last error and its cause are recorded, and the loop goes on only if
    that error is retryable and the deadline is not exceeded, after sleeping
    for the backoff delay. *)
Definition Continue (st : retry.State) : M (bool * retry.State) :=
  match retry.LastErr st with
  | None => ret (true, st)
  | Some err =>
      let st' := retry.tracked st err in
      if negb (retry.LastErrWasRetryable st') then ret (false, st')
      else
        let* now := observe sess_now in
        if retry.deadlineExceeded st' now then ret (false, st')
        else
          let* d := observe (throttleDelay (retry.Throttle st')) in
          call (fun x => (tt, sess_sleep d x)) (fun _ => CallSleep d) ;;;
          ret (true, retry.throttled st')
  end.

(** One attempt of a managed transaction.  The result is the source's
    [(tryAgain, result)] together with the retry state, which the source
    updates in place.  The deferred return of the connection runs on every
    path after a successful acquisition. *)
Definition executeTransactionFunction (ctx : Context) (mode : AccessMode)
           (config : TransactionConfig) (st : retry.State)
           (work : ManagedTransactionWork X) : M (bool * option Value * retry.State) :=
  let* r := getConnection ctx mode DefaultLivenessCheckThreshold in
  match r with
  | inl err =>
      let* st' := OnFailure ctx mode st None err false in
      ret (true, None, st')
  | inr conn =>
      let* out :=
        (let* s := get_sess in
         let txc := sessionTxConfig s mode config in
         let* r := call (conn_TxBegin ctx conn txc) (CallTxBegin ctx conn txc) in
         match r with
         | inl err =>
             let* st' := OnFailure ctx mode st (Some conn) err false in
             ret (true, None, st')
         | inr txHandle =>
             let tx := mkManagedTransaction conn (fetchSize s) txHandle in
             let* r := call (work tx) (CallWork tx) in
             match r with
             | inl err =>
                 let* st' := OnFailure ctx mode st (Some conn) err false in
                 ret (true, None, st')
             | inr x =>
                 let* e := call (conn_TxCommit ctx conn txHandle)
                                (CallTxCommit ctx conn txHandle) in
                 match e with
                 | Some err =>
                     let* st' := OnFailure ctx mode st (Some conn) err true in
                     ret (true, None, st')
                 | None =>
                     retrieveBookmarks (Some conn) ;;;
                     ret (false, Some x, st)
                 end
             end
         end) in
      call (pool_Return ctx conn) (CallReturn ctx conn) ;;;
      ret out
  end.

(** What [runRetriable] returns once the loop is left without a result. *)
Definition retriesExhausted (st : retry.State) : M (option Value * option Error) :=
  if retry.LastErrWasRetryable st then
    let err := TransactionExecutionLimit (retry.Errs st) (retry.Causes st) in
    logError err ;;; ret (None, Some err)
  else
    match retry.LastErr st with
    | None => ret (None, None)
    | Some e =>
        let err := wrapError e in
        match err with
        | UsageError _ | ConnectivityError _ => logError err
        | _ => ret tt
        end ;;;
        ret (None, Some err)
    end.

(** The loop [for state.Continue() { ... }] and what follows it.  [fuel]
    bounds the number of evaluations of the loop condition; [None] means
    the bound was reached with the loop still running. *)
Fixpoint retryLoop (fuel : nat) (ctx : Context) (mode : AccessMode)
         (config : TransactionConfig) (work : ManagedTransactionWork X)
         (st : retry.State) : M (option (option Value * option Error)) :=
  match fuel with
  | O => ret None
  | S fuel' =>
      let* '(goOn, st1) := Continue st in
      if goOn then
        let* '(tryAgain, result, st2) := executeTransactionFunction ctx mode config st1 work in
        if tryAgain then retryLoop fuel' ctx mode config work st2
        else ret (Some (result, None))
      else
        let* out := retriesExhausted st1 in
        ret (Some out)
  end.

Definition initialRetryState (s : sessionWithContext) : retry.State :=
  retry.mkState [] [] (MaxTransactionRetryTime (config s)) (throttleTime s)
                (MaxConnectionPoolSize (config s)) (databaseName s) false None None "".

Definition runRetriable (fuel : nat) (ctx : Context) (mode : AccessMode)
           (work : ManagedTransactionWork X)
           (configurers : list (TransactionConfig -> TransactionConfig))
  : M (option (option Value * option Error)) :=
  let* s := get_sess in
  match explicitTx s with
  | Some _ =>
      ret (Some (None, Some (UsageError "Session already has a pending transaction")))
  | None =>
      finishPendingAutocommit ctx ;;;
      let config := applyConfigurers configurers in
      match validateTransactionConfig config with
      | Some err => ret (Some (None, Some err))
      | None =>
          let* s := get_sess in
          retryLoop fuel ctx mode config work (initialRetryState s)
      end
  end.

Definition ExecuteRead (fuel : nat) (ctx : Context) (work : ManagedTransactionWork X)
           (configurers : list (TransactionConfig -> TransactionConfig)) :=
  runRetriable fuel ctx ReadMode work configurers.

Definition ExecuteWrite (fuel : nat) (ctx : Context) (work : ManagedTransactionWork X)
           (configurers : list (TransactionConfig -> TransactionConfig)) :=
  runRetriable fuel ctx WriteMode work configurers.

Definition getServerInfo (ctx : Context) : M (Error + ServerInfo) :=
  let* e := resolveHomeDatabase ctx in
  match e with
  | Some err => ret (inl (wrapError err))
  | None =>
      let* r := getServers ctx ReadMode in
      match r with
      | inl err => ret (inl (wrapError err))
      | inr servers =>
          let* s := get_sess in
          let wait := negb (Z.eqb (ConnectionAcquisitionTimeout (config s)) 0) in
          let* r := call (pool_Borrow ctx servers wait 0) (CallBorrow ctx servers wait 0) in
          match r with
          | inl err => ret (inl (wrapError err))
          | inr conn =>
              let* a := observe (conn_ServerName conn) in
              let* g := observe (conn_ServerVersion conn) in
              let* v := observe (conn_Version conn) in
              call (pool_Return ctx conn) (CallReturn ctx conn) ;;;
              ret (inr (mkServerInfo a g v))
          end
      end
  end.

End Session.

(** ** Observations on sessions and call logs *)

Definition nonEmpty (b : string) : bool := negb (String.eqb b "").

(** The bookmark set after a connection exposing [b] has been read. *)
Definition bookmarksAfter (old : list string) (b : string) : list string :=
  if String.eqb b "" then old else [b].

Definition isResolveCall (c : Call) : bool :=
  match c with
  | CallGetNameOfDefaultDatabase _ _ _ _ => true
  | _ => false
  end.

(** The results of the home-database resolutions of a log, in order. *)
Fixpoint resolveResults (l : list Call) : list (Error + string) :=
  match l with
  | [] => []
  | CallGetNameOfDefaultDatabase _ _ _ r :: rest => r :: resolveResults rest
  | _ :: rest => resolveResults rest
  end.

(** The context and the wait flag of every pool borrow of a log. *)
Fixpoint borrowCalls (l : list Call) : list (Context * bool) :=
  match l with
  | [] => []
  | CallBorrow ctx _ wait _ _ :: rest => (ctx, wait) :: borrowCalls rest
  | _ :: rest => borrowCalls rest
  end.

(** How often the user's work was invoked. *)
Fixpoint workCalls (l : list Call) : nat :=
  match l with
  | [] => O
  | CallWork _ _ :: rest => S (workCalls rest)
  | _ :: rest => workCalls rest
  end.

(** What a caller can do with a session, one step at a time.  [OpOutside]
    is anything that happens outside the session between two of its
    operations (the server, other sessions, the user consuming a result);
    [OpCloseTransaction] is the end of the pending explicit transaction, by
    commit, rollback or close, whose effect on the connection is [f]. *)
Inductive Op (X : Type) :=
| OpBeginTransaction (ctx : Context) (configurers : list (TransactionConfig -> TransactionConfig))
| OpRun (ctx : Context) (cypher : string) (params : list (string * Value))
        (configurers : list (TransactionConfig -> TransactionConfig))
| OpExecuteRead (fuel : nat) (ctx : Context) (work : ManagedTransactionWork X)
                (configurers : list (TransactionConfig -> TransactionConfig))
| OpExecuteWrite (fuel : nat) (ctx : Context) (work : ManagedTransactionWork X)
                 (configurers : list (TransactionConfig -> TransactionConfig))
| OpLastBookmarks
| OpLastBookmark
| OpGetServerInfo (ctx : Context)
| OpCloseTransaction (f : X -> X)
| OpOutside (f : X -> X).
Arguments OpBeginTransaction {X} _ _.
Arguments OpRun {X} _ _ _ _.
Arguments OpExecuteRead {X} _ _ _ _.
Arguments OpExecuteWrite {X} _ _ _ _.
Arguments OpLastBookmarks {X}.
Arguments OpLastBookmark {X}.
Arguments OpGetServerInfo {X} _.
Arguments OpCloseTransaction {X} _.
Arguments OpOutside {X} _.

Section Operations.

Context {X : Type}.
Context `{!sessionRouter X, !sessionPool X, !Connection X, !Runtime X}.

Definition outside (f : X -> X) : M X unit :=
  fun w => (tt, mkWorld (sess w) (f (ext w)) (calls w)).

(** Modelled from the spec: the end of an explicit transaction (its
    [Commit], [Rollback] and [Close] live in another file).  Whatever it
    does on the connection, it ends in the [onClosed] closure the session
    gave it. *)
Definition closeTransaction (f : X -> X) : M X unit :=
  let* s := get_sess in
  match explicitTx s with
  | Some tx => outside f ;;; explicit_onClosed tx
  | None => ret tt
  end.

Definition runOp (op : Op X) : M X unit :=
  match op with
  | OpBeginTransaction ctx cs => BeginTransaction ctx cs ;;; ret tt
  | OpRun ctx cypher params cs => Run ctx cypher params cs ;;; ret tt
  | OpExecuteRead fuel ctx work cs => ExecuteRead fuel ctx work cs ;;; ret tt
  | OpExecuteWrite fuel ctx work cs => ExecuteWrite fuel ctx work cs ;;; ret tt
  | OpLastBookmarks => LastBookmarks ;;; ret tt
  | OpLastBookmark => lastBookmark ;;; ret tt
  | OpGetServerInfo ctx => getServerInfo ctx ;;; ret tt
  | OpCloseTransaction f => closeTransaction f
  | OpOutside f => outside f
  end.

Fixpoint runOps (ops : list (Op X)) : M X unit :=
  match ops with
  | [] => ret tt
  | op :: rest => runOp op ;;; runOps rest
  end.

(** [m] keeps the property [Inv] of worlds. *)
Definition preserves {A} (Inv : World X -> Prop) (m : M X A) : Prop :=
  forall w, Inv w -> Inv (m w).2.


(** The session was created without a database name: while it is
    unresolved every resolution so far has failed; once it is resolved the
    log holds exactly one successful resolution, the last one, and its
    result is the session's database name. *)
(** The session after [getConnection]: as before, or resolved. *)
Definition resolvedFrom (s s' : sessionWithContext) : Prop :=
  s' = s \/ exists db, resolveHomeDb s = true /\ s' = set_resolved db s.


End Operations.

(** ** A scripted world

    A small concrete outside world with one server, one connection and a
    script of outcomes for the user's work; the concrete runs below are
    evaluated on it. *)

Module Scripted.

Record ScriptWorld := mkScript {
  clock : Z;
  homeDb : Error + string;
  connBookmark : string;
  streamBookmark : string;
  commitBookmark : string;
  commitError : option Error;
  workScript : list (Error + Value)
}.

Definition set_clock (t : Z) (x : ScriptWorld) : ScriptWorld :=
  mkScript t (homeDb x) (connBookmark x) (streamBookmark x) (commitBookmark x)
           (commitError x) (workScript x).

Definition set_connBookmark (b : string) (x : ScriptWorld) : ScriptWorld :=
  mkScript (clock x) (homeDb x) b (streamBookmark x) (commitBookmark x)
           (commitError x) (workScript x).

Definition set_workScript (l : list (Error + Value)) (x : ScriptWorld) : ScriptWorld :=
  mkScript (clock x) (homeDb x) (connBookmark x) (streamBookmark x) (commitBookmark x)
           (commitError x) l.

#[global] Instance script_router : sessionRouter ScriptWorld := {|
  router_Readers _ _ _ x := (inr ["reader1"%string], x);
  router_Writers _ _ _ x := (inr ["writer1"%string], x);
  router_GetNameOfDefaultDatabase _ _ _ x := (homeDb x, x);
  router_InvalidateReader _ _ _ x := (None, x);
  router_InvalidateWriter _ _ _ x := (None, x)
|}.

#[global] Instance script_pool : sessionPool ScriptWorld := {|
  pool_Borrow _ _ _ _ x := (inr 1%nat, x);
  pool_Return _ _ x := (None, x)
|}.

(** The server emits [streamBookmark] when an auto-commit stream ends and
    [commitBookmark] on a successful commit. *)
#[global] Instance script_conn : Connection ScriptWorld := {|
  conn_Bookmark _ x := connBookmark x;
  conn_TxBegin _ _ _ x := (inr 7%nat, x);
  conn_TxCommit _ _ _ x :=
    match commitError x with
    | Some e => (Some e, x)
    | None => (None, set_connBookmark (commitBookmark x) x)
    end;
  conn_Run _ _ _ _ x := (inr 3%nat, x);
  conn_Consume _ _ _ x := (None, set_connBookmark (streamBookmark x) x);
  conn_isDatabaseSelector _ := true;
  conn_SelectDatabase _ _ x := x;
  conn_ServerName _ _ := "server1"%string;
  conn_ServerVersion _ _ := "Neo4j/5.0.0"%string;
  conn_Version _ _ := (5, 0)
|}.

Definition script_classify (e : Error) : FailureClass :=
  match e with
  | Neo4jError code _ =>
      if String.prefix "Neo.TransientError" code then RetryableTransient else Fatal
  | UsageError _ => UsageFailure
  | _ => Fatal
  end.

#[global] Instance script_runtime : Runtime ScriptWorld := {|
  time_Now x := clock x;
  sess_now x := clock x;
  sess_sleep d x := set_clock (clock x + d) x;
  wrapError e :=
    match e with
    | OtherError _ => ConnectivityError e
    | _ => e
    end;
  classify _ e _ _ := script_classify e;
  inferredCause c :=
    match c with
    | RetryableTransient => "Transient error"%string
    | RetryableConnectivity => "Cluster error"%string
    | DeadConnection => "Connection lost"%string
    | _ => ""%string
    end;
  throttleDelay th _ := th
|}.

(** The user's work: the next outcome of the script. *)
Definition scriptedWork : ManagedTransactionWork ScriptWorld :=
  fun _ x =>
    match workScript x with
    | r :: rest => (r, set_workScript rest x)
    | [] => (inr VNull, x)
    end.

Definition world0 : ScriptWorld :=
  mkScript 0 (inr "neo4j"%string) "" "bm-stream" "bm-commit" None [].

Definition config0 : Config := mkConfig 1000 0 (30 * Second) 100.

Definition session0 : sessionWithContext :=
  newSessionWithContext config0 (mkSessionConfig WriteMode ["bm0"%string] "" 0 "").

Definition tx0 : explicitTransaction := mkExplicitTransaction 1%nat 1000 7%nat Background.

Definition auto0 : autocommitTransaction :=
  mkAutocommitTransaction 1%nat (mkResult 1%nat 3%nat "RETURN 1" []) Background.

Definition negativeTimeout (c : TransactionConfig) : TransactionConfig :=
  mkTransactionConfig (-5) (Metadata c).

Definition transient : Error := Neo4jError "Neo.TransientError.General.Whatever" "try again".
Definition fatal : Error := Neo4jError "Neo.ClientError.Statement.SyntaxError" "bad query".

Definition explicitWorld : World ScriptWorld :=
  mkWorld (set_explicitTx (Some tx0) session0) world0 [].

Definition autocommitWorld : World ScriptWorld :=
  mkWorld (set_autocommitTx (Some auto0) session0) world0 [].

Definition freshWorld : World ScriptWorld := mkWorld session0 world0 [].



End Scripted.

(** ** More observations on call logs *)

(** Connections held: successful borrows minus returns. *)
Fixpoint balance (l : list Call) : Z :=
  match l with
  | [] => 0
  | CallBorrow _ _ _ _ (inr _) :: rest => 1 + balance rest
  | CallReturn _ _ _ :: rest => balance rest - 1
  | _ :: rest => balance rest
  end.

(** The database selections of a log. *)
Fixpoint selectCalls (l : list Call) : list (ConnId * string) :=
  match l with
  | [] => []
  | CallSelectDatabase c db :: rest => (c, db) :: selectCalls rest
  | _ :: rest => selectCalls rest
  end.

(** The role asked of the router by every server lookup of a log. *)
Fixpoint lookupModes (l : list Call) : list AccessMode :=
  match l with
  | [] => []
  | CallReaders _ _ _ _ :: rest => ReadMode :: lookupModes rest
  | CallWriters _ _ _ _ :: rest => WriteMode :: lookupModes rest
  | _ :: rest => lookupModes rest
  end.

(** The configuration of every transaction begun in a log. *)
Fixpoint txBeginConfigs (l : list Call) : list TxConfig :=
  match l with
  | [] => []
  | CallTxBegin _ _ cfg _ :: rest => cfg :: txBeginConfigs rest
  | _ :: rest => txBeginConfigs rest
  end.

(** The outcome of every commit of a log. *)
Fixpoint commitResults (l : list Call) : list (option Error) :=
  match l with
  | [] => []
  | CallTxCommit _ _ _ res :: rest => res :: commitResults rest
  | _ :: rest => commitResults rest
  end.

(** The outcome of every invocation of the user's work in a log. *)
Fixpoint workResults (l : list Call) : list (Error + Value) :=
  match l with
  | [] => []
  | CallWork _ res :: rest => res :: workResults rest
  | _ :: rest => workResults rest
  end.

(** The servers, liveness threshold and outcome of every borrow of a log. *)
Fixpoint borrowDetails (l : list Call) : list (list string * Duration * (Error + ConnId)) :=
  match l with
  | [] => []
  | CallBorrow _ servers _ liveness res :: rest =>
      (servers, liveness, res) :: borrowDetails rest
  | _ :: rest => borrowDetails rest
  end.

(** The answers of the router to the server lookups of a log. *)
Fixpoint lookupResults (l : list Call) : list (Error + list string) :=
  match l with
  | [] => []
  | CallReaders _ _ _ res :: rest => res :: lookupResults rest
  | CallWriters _ _ _ res :: rest => res :: lookupResults rest
  | _ :: rest => lookupResults rest
  end.

(** The error of [getConnection] for a connection that cannot select a
    database. *)
Definition multiDatabaseError : Error :=
  UsageError "Database does not support multi-database".

(** How many invocations of the user's work returned a value. *)
Fixpoint successes (l : list (Error + Value)) : nat :=
  match l with
  | [] => O
  | inr _ :: rest => S (successes rest)
  | inl _ :: rest => successes rest
  end.

(** The commits of a managed transaction: failed ones, and a successful
    one at the end exactly when the transaction succeeded. *)
Definition commitsEndWell (succeeded : bool) (l : list (option Error)) : Prop :=
  if succeeded
  then exists failures, l = failures ++ [None] /\ Forall (fun r => r <> None) failures
  else Forall (fun r => r <> None) l.

(** The pending transactions of a session, counted. *)
Definition pending (s : sessionWithContext) : Z :=
  match explicitTx s with Some _ => 1 | None => 0 end
  + match autocommitTx s with Some _ => 1 | None => 0 end.

(** ** The testkit backend

    The backend reads requests from a socket, line by line, and keeps the
    objects and errors the frontend refers to under string ids.  What is
    left to read from the socket is a list of bytes; the many maps of
    objects that the functions below do not touch are one component,
    [objects]. *)

Module testkit.

Definition text := list ascii.

Definition newline : ascii := ascii_of_nat 10.

Definition requestBegin : text := String.list_ascii_of_string "#request begin" ++ [newline].
Definition requestEnd : text := String.list_ascii_of_string "#request end" ++ [newline].

(** [bufio.Reader.ReadString] with the newline as delimiter: the bytes up
    to and including the first newline; at the end of the input an error
    (here [None]), with everything read. *)
Fixpoint ReadString (s : text) : option text * text :=
  match s with
  | [] => (None, [])
  | c :: rest =>
      if Ascii.eqb c newline then (Some [c], rest)
      else let r := ReadString rest in (option_map (cons c) r.1, r.2)
  end.

(** [int] on a 64-bit platform. *)
Definition wrapInt (z : Z) : Z := (z + 2 ^ 63) mod 2 ^ 64 - 2 ^ 63.

Record backend (S : Type) := mkBackend {
  rd : text;
  recordedErrors : gmap string Error;
  id : Z;
  objects : S
}.
Arguments mkBackend {S} _ _ _ _.
Arguments rd {S} _.
Arguments recordedErrors {S} _.
Arguments id {S} _.
Arguments objects {S} _.

Definition set_rd {S} (r : text) (b : backend S) : backend S :=
  mkBackend r (recordedErrors b) (id b) (objects b).

Definition newBackend {S} (r : text) (objs : S) : backend S :=
  mkBackend r ∅ 0 objs.



(** How [process] ends: it returns, or it panics. *)
Inductive Outcome (S : Type) :=
| Returned (more : bool) (b : backend S)
| Panicked (msg : string).
Arguments Returned {S} _ _.
Arguments Panicked {S} _.

(** How [serve] ends: the socket is closed, or a panic. *)
Inductive Ended (S : Type) :=
| Closed (b : backend S)
| Crashed (msg : string).
Arguments Closed {S} _.
Arguments Crashed {S} _.

Section Serving.

Context {S : Type}.

(** [b.handleRequest(b.toRequest(request))]: the request is parsed and
    handled; both may panic ([inl]), and handling may itself read from the
    socket. *)
Variable handleRequest : text -> backend S -> string + backend S.

(** The loop of [process]; [fuel] bounds the number of lines read, [None]
    means the bound was reached. *)
Fixpoint processLoop (fuel : nat) (request : text) (inRequest : bool) (b : backend S)
  : option (Outcome S) :=
  match fuel with
  | O => None
  | Datatypes.S fuel' =>
      let r := ReadString (rd b) in
      let b := set_rd r.2 b in
      match r.1 with
      | None => Some (Returned false b)
      | Some line =>
          if decide (line = requestBegin) then
            if inRequest then Some (Panicked "Already in request")
            else processLoop fuel' request true b
          else if decide (line = requestEnd) then
            if negb inRequest then Some (Panicked "End while not in request")
            else match handleRequest request b with
                 | inl msg => Some (Panicked msg)
                 | inr b' => Some (Returned true b')
                 end
          else
            if negb inRequest then Some (Panicked "Line while not in request")
            else processLoop fuel' (request ++ line) inRequest b
      end
  end.

(** Every line read takes at least one byte, so the length of the input
    bounds the loop. *)
Definition process (b : backend S) : option (Outcome S) :=
  processLoop (Datatypes.S (length (rd b))) [] false b.

(** [for b.process() { }]; [fuel] bounds the number of requests. *)
Fixpoint serve (fuel : nat) (b : backend S) : option (Ended S) :=
  match fuel with
  | O => None
  | Datatypes.S fuel' =>
      match process b with
      | None => None
      | Some (Panicked msg) => Some (Crashed msg)
      | Some (Returned true b') => serve fuel' b'
      | Some (Returned false b') => Some (Closed b')
      end
  end.

End Serving.

(** A line of a request: no newline inside, and not one of the two
    markers. *)
Definition plainLine (l : text) : bool :=
  forallb (fun c => negb (Ascii.eqb c newline)) l
  && negb (bool_decide (l ++ [newline] = requestBegin))
  && negb (bool_decide (l ++ [newline] = requestEnd)).

Definition unlines (lines : list text) : text :=
  concat (map (fun l => l ++ [newline]) lines).

(** A request as the frontend sends it. *)
Definition framed (lines : list text) : text :=
  requestBegin ++ unlines lines ++ requestEnd.

(** [time.Millisecond]. *)
Definition Millisecond : Duration := 1000000.

(** [toTransactionConfigApply]: the configurer built from the optional
    [txMeta] and [timeout] of a request.  [timeout] is the number of the
    request once converted to a [time.Duration]; the product with
    [time.Millisecond] wraps around as 64-bit integers do. *)
Definition toTransactionConfigApply (txMeta : option (list (string * Value)))
           (timeout : option Z) : TransactionConfig -> TransactionConfig :=
  let txTimeout :=
    match timeout with
    | Some ms => wrapInt (Millisecond * ms)
    | None => MinInt
    end in
  fun conf =>
    mkTransactionConfig
      (if negb (Z.eqb txTimeout MinInt) then txTimeout else Timeout conf)
      (match txMeta with Some m => m | None => Metadata conf end).

(** A handler that only notes the requests it is given. *)
Definition noting (request : text) (b : backend (list text)) : backend (list text) :=
  mkBackend (rd b) (recordedErrors b) (id b) (objects b ++ [request]).

End testkit.

(** * Verification *)

(** ** Bookmarks of a new session *)

Lemma length_zero_empty (b : string) : Nat.eqb (String.length b) 0 = String.eqb b "".
Proof. destruct b; reflexivity. Qed.

Lemma length_pos_nonempty (b : string) : Nat.ltb 0 (String.length b) = negb (String.eqb b "").
Proof. destruct b; reflexivity. Qed.

Lemma cleaned_filter (bs acc : list string) :
  cleaned acc bs = acc ++ List.filter nonEmpty bs.
Proof.
  revert acc. induction bs as [|b rest IH]; intros acc; simpl.
  - now rewrite app_nil_r.
  - rewrite length_pos_nonempty. unfold nonEmpty at 1.
    destruct (negb (String.eqb b "")); rewrite IH; [|reflexivity].
    now rewrite <- app_assoc.
Qed.

Lemma hasBad_false_filter (bs : list string) :
  hasBad bs = false -> List.filter nonEmpty bs = bs.
Proof.
  induction bs as [|b rest IH]; simpl; [reflexivity|].
  rewrite length_zero_empty. unfold nonEmpty at 1.
  destruct (String.eqb b ""); [discriminate|].
  intros Hrest. simpl. now rewrite IH.
Qed.

Lemma cleanupBookmarks_filter (bs : list string) :
  cleanupBookmarks bs = List.filter nonEmpty bs.
Proof.
  unfold cleanupBookmarks. destruct (hasBad bs) eqn:Hbad; simpl.
  - apply cleaned_filter.
  - symmetry. now apply hasBad_false_filter.
Qed.

(** C9: the bookmarks of a new session are the configured ones with the
    empty strings filtered out, the others in their original order. *)
Theorem C9_new_session_bookmarks_filtered (cfg : Config) (sc : SessionConfig) :
  bookmarks (newSessionWithContext cfg sc)
  = List.filter (fun b => negb (String.eqb b "")) (sc_Bookmarks sc).
Proof. simpl. apply cleanupBookmarks_filter. Qed.

Example cleanupBookmarks_mixed :
  cleanupBookmarks ["a"; ""; "b"; ""; "a"]%string = ["a"; "b"; "a"]%string.
Proof. reflexivity. Qed.

(** ** Validation of the transaction configuration *)

Lemma validate_rejects (c : TransactionConfig) :
  Timeout c < 0 -> Timeout c <> MinInt ->
  validateTransactionConfig c = Some (UsageError (negativeTimeoutMessage (Timeout c))).
Proof.
  intros Hneg Hsent. unfold validateTransactionConfig.
  destruct (Z.eqb_spec (Timeout c) MinInt) as [Heq|_]; [contradiction|].
  destruct (Z.ltb_spec (Timeout c) 0); [reflexivity|lia].
Qed.

Lemma validate_accepts (c : TransactionConfig) :
  0 <= Timeout c \/ Timeout c = MinInt -> validateTransactionConfig c = None.
Proof.
  intros Hok. unfold validateTransactionConfig.
  destruct (Z.eqb_spec (Timeout c) MinInt) as [|Hne]; [reflexivity|].
  destruct (Z.ltb_spec (Timeout c) 0); [lia|reflexivity].
Qed.

Lemma validate_cases (c : TransactionConfig) :
  (Timeout c < 0 /\ Timeout c <> MinInt) \/ (0 <= Timeout c \/ Timeout c = MinInt).
Proof. destruct (Z.eq_dec (Timeout c) MinInt); lia. Qed.

(** ** Running the monad *)

Section Facts.

Context {X : Type}.
Context `{!sessionRouter X, !sessionPool X, !Connection X, !Runtime X}.

#[local] Abbreviation M := (M X).

Lemma bind_run {A B} (m : M A) (k : A -> M B) (w : World X) :
  bind m k w = k (m w).1 (m w).2.
Proof. unfold bind. now destruct (m w). Qed.

(** ** Pre-flight with a pending explicit transaction *)

(** C1: with a pending explicit transaction, BeginTransaction, Run,
    ExecuteRead and ExecuteWrite fail with a usage error; the session and
    the outside world are as before (the first two log the error). *)
Theorem C1_pending_explicit_transaction_rejected
        (w : World X) (tx : explicitTransaction) (ctx : Context)
        (configurers : list (TransactionConfig -> TransactionConfig))
        (cypher : string) (params : list (string * Value))
        (work : ManagedTransactionWork X) (fuel : nat) :
  explicitTx (sess w) = Some tx ->
  let e1 := UsageError "Session already has a pending transaction" in
  let e2 := UsageError "Trying to run auto-commit transaction while in explicit transaction" in
  BeginTransaction ctx configurers w
    = (inl e1, mkWorld (sess w) (ext w) (calls w ++ [CallLogError e1]))
  /\ Run ctx cypher params configurers w
    = (inl e2, mkWorld (sess w) (ext w) (calls w ++ [CallLogError e2]))
  /\ ExecuteRead fuel ctx work configurers w = (Some (None, Some e1), w)
  /\ ExecuteWrite fuel ctx work configurers w = (Some (None, Some e1), w).
Proof.
  intros Htx e1 e2.
  unfold BeginTransaction, Run, ExecuteRead, ExecuteWrite, runRetriable.
  rewrite !bind_run. unfold get_sess; simpl. rewrite Htx.
  repeat split; reflexivity.
Qed.


(** ** Validation inside the operations *)

Lemma finishPendingAutocommit_none (ctx : Context) (w : World X) :
  autocommitTx (sess w) = None -> finishPendingAutocommit ctx w = (tt, w).
Proof.
  intros Hnone. unfold finishPendingAutocommit. rewrite bind_run.
  unfold get_sess; simpl. now rewrite Hnone.
Qed.

Lemma finishPendingAutocommit_some (ctx : Context) (tx : autocommitTransaction) (w : World X) :
  autocommitTx (sess w) = Some tx ->
  finishPendingAutocommit ctx w = autocommit_done ctx tx w.
Proof.
  intros Hsome. unfold finishPendingAutocommit. rewrite bind_run.
  unfold get_sess; simpl. now rewrite Hsome.
Qed.

(** The four operations stop at an invalid configuration, after the
    pre-flight of the pending auto-commit transaction. *)
Lemma operations_reject_invalid_config
      (w : World X) (ctx : Context)
      (configurers : list (TransactionConfig -> TransactionConfig))
      (cypher : string) (params : list (string * Value))
      (work : ManagedTransactionWork X) (fuel : nat) (err : Error) :
  explicitTx (sess w) = None ->
  validateTransactionConfig (applyConfigurers configurers) = Some err ->
  let w' := (finishPendingAutocommit ctx w).2 in
  BeginTransaction ctx configurers w = (inl err, w')
  /\ Run ctx cypher params configurers w = (inl err, w')
  /\ ExecuteRead fuel ctx work configurers w = (Some (None, Some err), w')
  /\ ExecuteWrite fuel ctx work configurers w = (Some (None, Some err), w').
Proof.
  intros Hexp Hval w'.
  unfold BeginTransaction, Run, ExecuteRead, ExecuteWrite, runRetriable.
  rewrite !bind_run. unfold get_sess at 1 3 5 7; simpl. rewrite Hexp.
  rewrite !bind_run, Hval. repeat split; reflexivity.
Qed.


(** C6: validation answers with a usage error exactly for a negative
    timeout other than the sentinel, and accepts the sentinel and every
    timeout from 0 on; BeginTransaction, Run, ExecuteRead and ExecuteWrite
    return that usage error for a rejected configuration. *)
Theorem C6_timeout_validation
        (w : World X) (ctx : Context)
        (configurers : list (TransactionConfig -> TransactionConfig))
        (cypher : string) (params : list (string * Value))
        (work : ManagedTransactionWork X) (fuel : nat) :
  let c := applyConfigurers configurers in
  let err := UsageError (negativeTimeoutMessage (Timeout c)) in
  (validateTransactionConfig c = Some err <-> (Timeout c < 0 /\ Timeout c <> MinInt))
  /\ (validateTransactionConfig c = None <-> (0 <= Timeout c \/ Timeout c = MinInt))
  /\ (explicitTx (sess w) = None -> Timeout c < 0 -> Timeout c <> MinInt ->
      (BeginTransaction ctx configurers w).1 = inl err
      /\ (Run ctx cypher params configurers w).1 = inl err
      /\ (ExecuteRead fuel ctx work configurers w).1 = Some (None, Some err)
      /\ (ExecuteWrite fuel ctx work configurers w).1 = Some (None, Some err)).
Proof.
  intros c err. split; [|split].
  - split; [|intros [? ?]; now apply validate_rejects].
    intros Hval. destruct (validate_cases c) as [?|Hok]; [assumption|].
    rewrite (validate_accepts c Hok) in Hval. discriminate.
  - split; [|apply validate_accepts].
    intros Hval. destruct (validate_cases c) as [[? ?]|?]; [|assumption].
    rewrite (validate_rejects c) in Hval by assumption. discriminate.
  - intros Hexp Hneg Hsent.
    pose proof (validate_rejects c Hneg Hsent) as Hval.
    destruct (operations_reject_invalid_config w ctx configurers cypher params work fuel
                _ Hexp Hval) as (-> & -> & -> & ->).
    repeat split; reflexivity.
Qed.

(** ** Invariants of the home database resolution *)



Section Invariant.

Variable Inv : World X -> Prop.

Hypothesis Inv_call : forall (w : World X) (x' : X) (c : Call),
    isResolveCall c = false -> Inv w -> Inv (mkWorld (sess w) x' (calls w ++ [c])).
Hypothesis Inv_ext : forall (w : World X) (x' : X),
    Inv w -> Inv (mkWorld (sess w) x' (calls w)).
Hypothesis Inv_sess : forall (w : World X) (s' : sessionWithContext),
    resolveHomeDb s' = resolveHomeDb (sess w) ->
    databaseName s' = databaseName (sess w) ->
    Inv w -> Inv (mkWorld s' (ext w) (calls w)).
Hypothesis Inv_resolve : forall ctx : Context, preserves Inv (resolveHomeDatabase ctx).

Lemma preserves_ret {A} (a : A) : preserves Inv (ret a).
Proof. intros w Hw. exact Hw. Qed.

Lemma preserves_bind {A B} (m : M A) (k : A -> M B) :
  preserves Inv m -> (forall a, preserves Inv (k a)) -> preserves Inv (bind m k).
Proof.
  intros Hm Hk w Hw. rewrite bind_run. apply Hk, Hm, Hw.
Qed.

Lemma preserves_get_sess : preserves Inv get_sess.
Proof. intros w Hw. exact Hw. Qed.

Lemma preserves_observe {A} (f : X -> A) : preserves Inv (observe f).
Proof. intros w Hw. exact Hw. Qed.

Lemma preserves_call {A} (f : X -> A * X) (ev : A -> Call) :
  (forall a, isResolveCall (ev a) = false) -> preserves Inv (call f ev).
Proof.
  intros Hev w Hw. unfold call. destruct (f (ext w)) as [a x'] eqn:Hf. simpl.
  now apply Inv_call.
Qed.

Lemma preserves_logError (e : Error) : preserves Inv (logError e).
Proof. intros w Hw. unfold logError; simpl. now apply Inv_call. Qed.

Lemma preserves_modify (f : sessionWithContext -> sessionWithContext) :
  (forall s, resolveHomeDb (f s) = resolveHomeDb s) ->
  (forall s, databaseName (f s) = databaseName s) ->
  preserves Inv (modify_sess f).
Proof. intros Hr Hd w Hw. unfold modify_sess; simpl. now apply Inv_sess. Qed.

Lemma preserves_outside (f : X -> X) : preserves Inv (outside f).
Proof. intros w Hw. unfold outside; simpl. now apply Inv_ext. Qed.

Ltac preserve_step :=
  first
    [ apply preserves_ret
    | apply preserves_get_sess
    | apply preserves_observe
    | apply preserves_logError
    | apply preserves_outside
    | apply Inv_resolve
    | apply preserves_call; intros; reflexivity
    | apply preserves_modify; intros; reflexivity
    | apply preserves_bind; [|intros]
    | match goal with
      | |- preserves _ (match ?x with _ => _ end) => destruct x
      | |- preserves _ (let (_, _) := ?x in _) => destruct x
      end
    | progress cbv zeta ].

Ltac preserve := repeat preserve_step.

Lemma preserves_retrieveBookmarks (conn : option ConnId) :
  preserves Inv (retrieveBookmarks conn).
Proof. unfold retrieveBookmarks. preserve. Qed.

Lemma preserves_getServers (ctx : Context) (mode : AccessMode) :
  preserves Inv (getServers ctx mode).
Proof. unfold getServers. preserve. Qed.

Lemma preserves_getConnection (ctx : Context) (mode : AccessMode) (l : Duration) :
  preserves Inv (getConnection ctx mode l).
Proof.
  unfold getConnection, acquisitionContext. preserve.
  all: try apply preserves_getServers; preserve.
Qed.

Lemma preserves_autocommit_done (ctx : Context) (tx : autocommitTransaction) :
  preserves Inv (autocommit_done ctx tx).
Proof.
  unfold autocommit_done, autocommit_onClosed. preserve.
  all: try apply preserves_retrieveBookmarks; preserve.
Qed.

Lemma preserves_finishPendingAutocommit (ctx : Context) :
  preserves Inv (finishPendingAutocommit ctx).
Proof.
  unfold finishPendingAutocommit. preserve.
  all: try apply preserves_autocommit_done.
Qed.

Lemma preserves_explicit_onClosed (tx : explicitTransaction) :
  preserves Inv (explicit_onClosed tx).
Proof.
  unfold explicit_onClosed. preserve.
  all: try apply preserves_retrieveBookmarks; preserve.
Qed.

Lemma preserves_LastBookmarks : preserves Inv LastBookmarks.
Proof.
  unfold LastBookmarks. preserve.
  all: try apply preserves_retrieveBookmarks; preserve.
Qed.

Lemma preserves_lastBookmark : preserves Inv lastBookmark.
Proof.
  unfold lastBookmark. preserve.
  all: try apply preserves_retrieveBookmarks; preserve.
Qed.

Lemma preserves_BeginTransaction ctx configurers :
  preserves Inv (BeginTransaction ctx configurers).
Proof.
  unfold BeginTransaction. preserve.
  all: try apply preserves_finishPendingAutocommit.
  all: try apply preserves_getConnection; preserve.
Qed.

Lemma preserves_Run ctx cypher params configurers :
  preserves Inv (Run ctx cypher params configurers).
Proof.
  unfold Run. preserve.
  all: try apply preserves_finishPendingAutocommit.
  all: try apply preserves_getConnection; preserve.
Qed.

Lemma preserves_OnFailure ctx mode st conn err isCommitting :
  preserves Inv (OnFailure ctx mode st conn err isCommitting).
Proof. unfold OnFailure, OnDeadConnection. preserve. Qed.

Lemma preserves_Continue st : preserves Inv (Continue st).
Proof. unfold Continue. preserve. Qed.

Lemma preserves_executeTransactionFunction ctx mode config st work :
  preserves Inv (executeTransactionFunction ctx mode config st work).
Proof.
  unfold executeTransactionFunction. preserve.
  all: try apply preserves_getConnection.
  all: try apply preserves_OnFailure.
  all: try apply preserves_retrieveBookmarks; preserve.
Qed.

Lemma preserves_retriesExhausted st : preserves Inv (retriesExhausted st).
Proof. unfold retriesExhausted. preserve. Qed.

Lemma preserves_retryLoop fuel ctx mode config work st :
  preserves Inv (retryLoop fuel ctx mode config work st).
Proof.
  revert st. induction fuel as [|fuel IH]; intros st; simpl; [apply preserves_ret|].
  apply preserves_bind; [apply preserves_Continue|].
  intros [[] st1].
  - apply preserves_bind; [apply preserves_executeTransactionFunction|].
    intros [[[] result] st2]; [apply IH | apply preserves_ret].
  - apply preserves_bind; [apply preserves_retriesExhausted | intros; apply preserves_ret].
Qed.

Lemma preserves_runRetriable fuel ctx mode work configurers :
  preserves Inv (runRetriable fuel ctx mode work configurers).
Proof.
  unfold runRetriable. preserve.
  all: try apply preserves_finishPendingAutocommit.
  all: try apply preserves_retryLoop; preserve.
Qed.

Lemma preserves_getServerInfo ctx : preserves Inv (getServerInfo ctx).
Proof.
  unfold getServerInfo. preserve.
  all: try apply preserves_getServers; preserve.
Qed.

Lemma preserves_runOp (op : Op X) : preserves Inv (runOp op).
Proof.
  destruct op; simpl; unfold ExecuteRead, ExecuteWrite, closeTransaction.
  - apply preserves_bind; [apply preserves_BeginTransaction | intros; apply preserves_ret].
  - apply preserves_bind; [apply preserves_Run | intros; apply preserves_ret].
  - apply preserves_bind; [apply preserves_runRetriable | intros; apply preserves_ret].
  - apply preserves_bind; [apply preserves_runRetriable | intros; apply preserves_ret].
  - apply preserves_bind; [apply preserves_LastBookmarks | intros; apply preserves_ret].
  - apply preserves_bind; [apply preserves_lastBookmark | intros; apply preserves_ret].
  - apply preserves_bind; [apply preserves_getServerInfo | intros; apply preserves_ret].
  - preserve. all: try apply preserves_explicit_onClosed.
  - apply preserves_outside.
Qed.

Lemma preserves_runOps (ops : list (Op X)) : preserves Inv (runOps ops).
Proof.
  induction ops as [|op rest IH]; simpl; [apply preserves_ret|].
  apply preserves_bind; [apply preserves_runOp | intros; apply IH].
Qed.

End Invariant.

(** ** Symbolic execution of the smaller functions *)

Lemma call_run {A} (f : X -> A * X) (ev : A -> Call) (w : World X) :
  call f ev w
  = ((f (ext w)).1, mkWorld (sess w) (f (ext w)).2 (calls w ++ [ev (f (ext w)).1])).
Proof. unfold call. now destruct (f (ext w)). Qed.

Ltac exec_case :=
  match goal with
  | |- context [match ?x with _ => _ end] =>
      lazymatch x with
      | context [match _ with _ => _ end] => fail
      | negb ?y => destruct y eqn:?
      | _ => destruct x eqn:?
      end
  end.

Ltac exec_step :=
  first
    [ rewrite bind_run
    | rewrite call_run
    | progress (unfold ret, get_sess, observe, modify_sess, logError)
    | progress simpl
    | exec_case ].

Ltac exec := repeat exec_step.

Lemma getConnection_effect (ctx : Context) (mode : AccessMode) (l : Duration) (w : World X) :
  let timeout := ConnectionAcquisitionTimeout (config (sess w)) in
  let ctx' := if Z.ltb 0 timeout
              then context_WithTimeout (time_Now (ext w)) ctx timeout else ctx in
  let w' := (getConnection ctx mode l w).2 in
  resolvedFrom (sess w) (sess w')
  /\ exists es, calls w' = calls w ++ es
                /\ (borrowCalls es = [] \/ borrowCalls es = [(ctx', negb (Z.eqb timeout 0))])
                /\ (forall conn, (getConnection ctx mode l w).1 = inr conn ->
                    borrowCalls es = [(ctx', negb (Z.eqb timeout 0))])
                /\ workCalls es = O
                /\ (if resolveHomeDb (sess w)
                    then exists r, resolveResults es = [r] else resolveResults es = []).
Proof.
  unfold resolvedFrom, getConnection, acquisitionContext, resolveHomeDatabase, getServers.
  exec.
  all: split; [first [left; reflexivity | right; eexists; split; reflexivity]|].
  all: eexists; split; [rewrite <- ?app_assoc; reflexivity|].
  all: simpl; split; [auto|]; split; [intros conn [=]; reflexivity || auto|].
  all: split; [reflexivity|eauto].
Qed.

Lemma set_bookmarks_same (s : sessionWithContext) : set_bookmarks (bookmarks s) s = s.
Proof. now destruct s. Qed.

Lemma retrieveBookmarks_nil (w : World X) : retrieveBookmarks None w = (tt, w).
Proof. reflexivity. Qed.

Lemma retrieveBookmarks_run (c : ConnId) (w : World X) :
  let b := conn_Bookmark c (ext w) in
  retrieveBookmarks (Some c) w
  = (tt, mkWorld (set_bookmarks (bookmarksAfter (bookmarks (sess w)) b) (sess w))
                 (ext w) (calls w ++ [CallBookmark c b])).
Proof.
  unfold retrieveBookmarks, bookmarksAfter. exec.
  all: rewrite length_pos_nonempty in *.
  all: destruct (String.eqb _ "") eqn:Hb; try discriminate; try reflexivity.
  now rewrite set_bookmarks_same.
Qed.

Lemma autocommit_onClosed_run (tx : autocommitTransaction) (w : World X) :
  let c := at_conn tx in
  let b := conn_Bookmark c (ext w) in
  let r := pool_Return (at_ctx tx) c (ext w) in
  autocommit_onClosed tx w
  = (tt, mkWorld (set_autocommitTx None
                    (set_bookmarks (bookmarksAfter (bookmarks (sess w)) b) (sess w)))
                 r.2
                 (calls w ++ [CallBookmark c b; CallReturn (at_ctx tx) c r.1])).
Proof.
  unfold autocommit_onClosed. rewrite !bind_run, retrieveBookmarks_run.
  simpl. rewrite call_run. simpl. unfold modify_sess. simpl.
  now rewrite <- app_assoc.
Qed.

Lemma explicit_onClosed_run (tx : explicitTransaction) (w : World X) :
  let c := et_conn tx in
  let b := conn_Bookmark c (ext w) in
  let r := pool_Return (et_ctx tx) c (ext w) in
  explicit_onClosed tx w
  = (tt, mkWorld (set_explicitTx None
                    (set_bookmarks (bookmarksAfter (bookmarks (sess w)) b) (sess w)))
                 r.2
                 (calls w ++ [CallBookmark c b; CallReturn (et_ctx tx) c r.1])).
Proof.
  unfold explicit_onClosed. rewrite !bind_run, retrieveBookmarks_run.
  simpl. rewrite call_run. simpl. unfold modify_sess. simpl.
  now rewrite <- app_assoc.
Qed.

Lemma autocommit_done_run (ctx : Context) (tx : autocommitTransaction) (w : World X) :
  let c := at_conn tx in
  let str := res_stream (at_res tx) in
  let d := conn_Consume ctx c str (ext w) in
  let b := conn_Bookmark c d.2 in
  let r := pool_Return (at_ctx tx) c d.2 in
  autocommit_done ctx tx w
  = (tt, mkWorld (set_autocommitTx None
                    (set_bookmarks (bookmarksAfter (bookmarks (sess w)) b) (sess w)))
                 r.2
                 (calls w ++ [CallConsume ctx c str d.1; CallBookmark c b;
                              CallReturn (at_ctx tx) c r.1])).
Proof.
  unfold autocommit_done. rewrite bind_run, call_run, autocommit_onClosed_run.
  simpl. now rewrite <- app_assoc.
Qed.

(** ** One attempt of a managed transaction *)

Ltac exec' :=
  repeat first [ rewrite retrieveBookmarks_run | exec_step ].

Lemma OnFailure_effect ctx mode st conn err isCommitting (w : World X) :
  let r := OnFailure ctx mode st conn err isCommitting w in
  sess r.2 = sess w
  /\ (exists es, calls r.2 = calls w ++ es
                 /\ workCalls es = O /\ resolveResults es = [] /\ borrowCalls es = [])
  /\ r.1 = retry.failed st err (classify conn err isCommitting (ext w))
                        (inferredCause (classify conn err isCommitting (ext w)))
                        (sess_now (ext w)).
Proof.
  unfold OnFailure, OnDeadConnection. exec.
  all: split; [reflexivity|]; split; [|reflexivity].
  all: eexists; split; [rewrite <- ?app_assoc; try reflexivity; symmetry; apply app_nil_r|].
  all: repeat split; reflexivity.
Qed.

Lemma resolvedFrom_frame (s s' : sessionWithContext) :
  resolvedFrom s s' ->
  bookmarks s' = bookmarks s /\ autocommitTx s' = autocommitTx s
  /\ explicitTx s' = explicitTx s /\ config s' = config s.
Proof. intros [->|(db & _ & ->)]; repeat split; reflexivity. Qed.

Lemma executeTransactionFunction_outcome ctx mode config st work (w : World X) :
  let r := executeTransactionFunction ctx mode config st work w in
  autocommitTx (sess r.2) = autocommitTx (sess w)
  /\ explicitTx (sess r.2) = explicitTx (sess w)
  /\ (r.1.1.1 = true ->
      bookmarks (sess r.2) = bookmarks (sess w)
      /\ r.1.1.2 = None
      /\ exists e, retry.LastErr r.1.2 = Some e)
  /\ (r.1.1.1 = false ->
      r.1.2 = st
      /\ (exists x, r.1.1.2 = Some x)
      /\ exists c h b ret pre,
          calls r.2 = calls w ++ pre ++ [CallTxCommit ctx c h None; CallBookmark c b;
                                         CallReturn ctx c ret]
          /\ bookmarks (sess r.2) = bookmarksAfter (bookmarks (sess w)) b).
Proof.
  unfold executeTransactionFunction. rewrite bind_run.
  destruct (getConnection_effect ctx mode DefaultLivenessCheckThreshold w)
    as (Hsess & es & Hcalls & _).
  apply resolvedFrom_frame in Hsess. destruct Hsess as (Hbm & Hauto & Hexp & _).
  set (w1 := (getConnection ctx mode DefaultLivenessCheckThreshold w).2) in *.
  destruct (getConnection ctx mode DefaultLivenessCheckThreshold w).1 as [err|conn].
  - rewrite bind_run. simpl.
    destruct (OnFailure_effect ctx mode st None err false w1) as (Hs & _ & Hst).
    rewrite Hs, Hst. repeat split; try assumption; try discriminate. eauto.
  - exec'.
    all: repeat match goal with
           | |- context [OnFailure ?a ?b ?c ?d ?e ?f ?v] =>
               let Hs := fresh "Hs" in
               let Hst := fresh "Hst" in
               destruct (OnFailure_effect a b c d e f v) as (Hs & _ & Hst);
               simpl in Hs; rewrite ?Hs, ?Hst; clear Hs Hst
           end.
    all: simpl; repeat split; try assumption; try discriminate; eauto.
    all: eexists conn, _, _, _, (es ++ [_; _]).
    all: split; [rewrite Hcalls, <- !app_assoc; reflexivity|].
    all: rewrite length_pos_nonempty in *; unfold bookmarksAfter.
    all: destruct (String.eqb _ ""); try discriminate; simpl; congruence.
Qed.

(** ** The log only grows *)

Lemma extends_call (w0 w : World X) (x' : X) (c : Call) :
  isResolveCall c = false ->
  (exists es, calls w = calls w0 ++ es) ->
  exists es, calls (mkWorld (sess w) x' (calls w ++ [c])) = calls w0 ++ es.
Proof. intros _ [es Hes]. exists (es ++ [c]). simpl. now rewrite Hes, app_assoc. Qed.

Lemma extends_resolve (w0 : World X) (ctx : Context) :
  preserves (fun w => exists es, calls w = calls w0 ++ es) (resolveHomeDatabase ctx).
Proof.
  intros w [es Hes]. unfold resolveHomeDatabase. exec.
  all: eexists; rewrite ?Hes, <- ?app_assoc; reflexivity.
Qed.

Lemma runRetriable_extends fuel ctx mode work configurers (w : World X) :
  exists es, calls (runRetriable fuel ctx mode work configurers w).2 = calls w ++ es.
Proof.
  apply (preserves_runRetriable (fun w' => exists es, calls w' = calls w ++ es)).
  - apply extends_call.
  - intros v s' _ _ Hv. exact Hv.
  - apply extends_resolve.
  - exists []. now rewrite app_nil_r.
Qed.

Lemma Continue_extends st (w : World X) :
  exists es, calls (Continue st w).2 = calls w ++ es.
Proof.
  unfold Continue. exec.
  all: eexists; rewrite <- ?app_assoc; try reflexivity; symmetry; apply app_nil_r.
Qed.

Lemma executeTransactionFunction_extends ctx mode config st work (w : World X) :
  exists es, calls (executeTransactionFunction ctx mode config st work w).2 = calls w ++ es.
Proof.
  apply (preserves_executeTransactionFunction (fun w' => exists es, calls w' = calls w ++ es)).
  - apply extends_call.
  - intros v s' _ _ Hv. exact Hv.
  - apply extends_resolve.
  - exists []. now rewrite app_nil_r.
Qed.

(** ** The retry loop *)

Lemma Continue_run (st : retry.State) (w : World X) :
  Continue st w
  = match retry.LastErr st with
    | None => ((true, st), w)
    | Some err =>
        let st' := retry.tracked st err in
        if negb (retry.LastErrWasRetryable st) then ((false, st'), w)
        else if retry.deadlineExceeded st (sess_now (ext w)) then ((false, st'), w)
        else
          let d := throttleDelay (retry.Throttle st) (ext w) in
          ((true, retry.throttled st'),
           mkWorld (sess w) (sess_sleep d (ext w)) (calls w ++ [CallSleep d]))
    end.
Proof.
  unfold Continue. destruct (retry.LastErr st) as [err|]; [|reflexivity].
  simpl. destruct (retry.LastErrWasRetryable st); [|reflexivity]. simpl.
  rewrite bind_run. unfold observe at 1. simpl.
  change (retry.deadlineExceeded (retry.tracked st err) (sess_now (ext w)))
    with (retry.deadlineExceeded st (sess_now (ext w))).
  destruct (retry.deadlineExceeded st (sess_now (ext w))); [reflexivity|].
  exec. reflexivity.
Qed.

Lemma Continue_sess (st : retry.State) (w : World X) : sess (Continue st w).2 = sess w.
Proof.
  rewrite Continue_run. destruct (retry.LastErr st); [|reflexivity]. simpl.
  destruct (negb _); [reflexivity|]. now destruct (retry.deadlineExceeded _ _).
Qed.

Lemma retriesExhausted_sess (st : retry.State) (w : World X) :
  sess (retriesExhausted st w).2 = sess w.
Proof. unfold retriesExhausted. exec; reflexivity. Qed.

Lemma retriesExhausted_no_result (st : retry.State) (w : World X) :
  (retriesExhausted st w).1.1 = None.
Proof. unfold retriesExhausted. exec; reflexivity. Qed.


(** A run of the loop that ends: the session's pending transactions are
    untouched; without a result the bookmarks are as before; with a result
    the log ends with the successful commit, the reading of the
    connection's bookmark and the return of the connection, and the
    bookmarks are those after that reading. *)
Lemma retryLoop_bookmarks fuel ctx mode config work st (w : World X) out :
  (retryLoop fuel ctx mode config work st w).1 = Some out ->
  let w' := (retryLoop fuel ctx mode config work st w).2 in
  autocommitTx (sess w') = autocommitTx (sess w)
  /\ explicitTx (sess w') = explicitTx (sess w)
  /\ (out.1 = None -> bookmarks (sess w') = bookmarks (sess w))
  /\ (forall x, out.1 = Some x ->
      out.2 = None
      /\ exists c h b ret pre,
          calls w' = calls w ++ pre ++ [CallTxCommit ctx c h None; CallBookmark c b;
                                        CallReturn ctx c ret]
          /\ bookmarks (sess w') = bookmarksAfter (bookmarks (sess w)) b).
Proof.
  revert st w. induction fuel as [|fuel IH]; intros st w; simpl; [discriminate|].
  rewrite bind_run.
  pose proof (Continue_sess st w) as Hs1.
  destruct (Continue_extends st w) as [es1 He1].
  destruct (Continue st w) as [[goOn st1] w1]. simpl in *.
  destruct goOn.
  - rewrite bind_run.
    destruct (executeTransactionFunction_outcome ctx mode config st1 work w1)
      as (Hauto & Hexp & Hfail & Hok).
    destruct (executeTransactionFunction_extends ctx mode config st1 work w1) as [es2 He2].
    destruct (executeTransactionFunction ctx mode config st1 work w1)
      as [[[tryAgain result] st2] w2]. simpl in *.
    destruct tryAgain.
    + intros Hout. specialize (IH st2 w2 Hout).
      destruct IH as (IHa & IHe & IHn & IHs).
      destruct (Hfail eq_refl) as (Hbm & _ & _).
      split; [congruence|]. split; [congruence|]. split.
      * intros Hnone. rewrite (IHn Hnone). congruence.
      * intros x Hx. destruct (IHs x Hx) as (Hnil & c & h & b & ret & pre & Hc & Hb).
        split; [exact Hnil|].
        exists c, h, b, ret, (es1 ++ es2 ++ pre). split; [|congruence].
        rewrite Hc, He2, He1, <- !app_assoc. reflexivity.
    + simpl. intros [= <-]. simpl.
      destruct (Hok eq_refl) as (_ & (v & ->) & c & h & b & ret & pre & Hc & Hb).
      split; [congruence|]. split; [congruence|]. split; [discriminate|].
      intros x _. split; [reflexivity|].
      exists c, h, b, ret, (es1 ++ pre). split; [|congruence].
      rewrite Hc, He1, <- !app_assoc. reflexivity.
  - rewrite bind_run. simpl. intros [= <-].
    rewrite retriesExhausted_sess, retriesExhausted_no_result.
    split; [congruence|]. split; [congruence|]. split; [congruence|discriminate].
Qed.

(** ** Bookmark propagation *)

(** C2: at every return of a connection (close of the explicit
    transaction, end of the auto-commit transaction, commit of a managed
    transaction) a non-empty bookmark of the connection replaces the
    session's bookmarks by the list of that one bookmark; an empty
    bookmark, or no connection, leaves the bookmarks as they are. *)
Theorem C2_bookmark_replaced_on_connection_return (w : World X) :
  retrieveBookmarks None w = (tt, w)
  /\ (forall c : ConnId,
        let b := conn_Bookmark c (ext w) in
        let w' := (retrieveBookmarks (Some c) w).2 in
        (b <> "" -> sess w' = set_bookmarks [b] (sess w))
        /\ (b = "" -> sess w' = sess w))
  /\ (forall tx : explicitTransaction,
        let b := conn_Bookmark (et_conn tx) (ext w) in
        bookmarks (sess (explicit_onClosed tx w).2)
        = if String.eqb b "" then bookmarks (sess w) else [b])
  /\ (forall tx : autocommitTransaction,
        let b := conn_Bookmark (at_conn tx) (ext w) in
        bookmarks (sess (autocommit_onClosed tx w).2)
        = if String.eqb b "" then bookmarks (sess w) else [b])
  /\ (forall ctx mode config st work,
        let r := executeTransactionFunction ctx mode config st work w in
        r.1.1.1 = false ->
        exists c h b ret pre,
          calls r.2 = calls w ++ pre ++ [CallTxCommit ctx c h None; CallBookmark c b;
                                         CallReturn ctx c ret]
          /\ bookmarks (sess r.2) = if String.eqb b "" then bookmarks (sess w) else [b]).
Proof.
  split; [reflexivity|]. split; [|split; [|split]].
  - intros c b w'. subst w'. rewrite retrieveBookmarks_run. fold b. simpl.
    unfold bookmarksAfter. split.
    + intros Hb. apply String.eqb_neq in Hb. now rewrite Hb.
    + intros Hb. rewrite Hb. simpl. apply set_bookmarks_same.
  - intros tx b. rewrite explicit_onClosed_run. reflexivity.
  - intros tx b. rewrite autocommit_onClosed_run. reflexivity.
  - intros ctx mode config st work r Hr.
    destruct (executeTransactionFunction_outcome ctx mode config st work w)
      as (_ & _ & _ & Hok).
    destruct (Hok Hr) as (_ & _ & H). exact H.
Qed.

Lemma LastBookmarks_pending (tx : autocommitTransaction) (w : World X) :
  autocommitTx (sess w) = Some tx ->
  let b := conn_Bookmark (at_conn tx) (ext w) in
  LastBookmarks w
  = (bookmarksAfter (bookmarks (sess w)) b,
     mkWorld (set_bookmarks (bookmarksAfter (bookmarks (sess w)) b) (sess w))
             (ext w) (calls w ++ [CallBookmark (at_conn tx) b])).
Proof.
  intros Htx b. unfold LastBookmarks. rewrite bind_run. unfold get_sess at 1.
  cbn [fst snd]. rewrite Htx. rewrite bind_run.
  rewrite retrieveBookmarks_run. reflexivity.
Qed.

Lemma LastBookmarks_idle (w : World X) :
  autocommitTx (sess w) = None -> LastBookmarks w = (bookmarks (sess w), w).
Proof.
  intros Htx. unfold LastBookmarks. rewrite bind_run. unfold get_sess at 1. simpl.
  rewrite Htx. reflexivity.
Qed.

Lemma finishPendingAutocommit_idle (ctx : Context) (w : World X) :
  autocommitTx (sess (finishPendingAutocommit ctx w).2) = None
  /\ explicitTx (sess (finishPendingAutocommit ctx w).2) = explicitTx (sess w).
Proof.
  destruct (autocommitTx (sess w)) as [tx|] eqn:Htx.
  - rewrite (finishPendingAutocommit_some ctx tx w Htx), autocommit_done_run.
    split; reflexivity.
  - rewrite (finishPendingAutocommit_none ctx w Htx). split; [assumption|reflexivity].
Qed.

(** A managed transaction that ends, seen from after its pre-flight. *)
Lemma runRetriable_bookmarks fuel ctx mode work configurers (w : World X) out :
  explicitTx (sess w) = None ->
  (runRetriable fuel ctx mode work configurers w).1 = Some out ->
  let w0 := (finishPendingAutocommit ctx w).2 in
  let w' := (runRetriable fuel ctx mode work configurers w).2 in
  autocommitTx (sess w') = None
  /\ (out.1 = None -> bookmarks (sess w') = bookmarks (sess w0))
  /\ (forall x, out.1 = Some x ->
      out.2 = None
      /\ exists c h b ret pre,
          calls w' = calls w0 ++ pre ++ [CallTxCommit ctx c h None; CallBookmark c b;
                                         CallReturn ctx c ret]
          /\ bookmarks (sess w') = bookmarksAfter (bookmarks (sess w0)) b).
Proof.
  intros Hexp. unfold runRetriable. rewrite bind_run. unfold get_sess at 1 2. simpl.
  rewrite Hexp, !bind_run.
  destruct (finishPendingAutocommit_idle ctx w) as (Hidle & _).
  set (w0 := (finishPendingAutocommit ctx w).2) in *.
  destruct (validateTransactionConfig (applyConfigurers configurers)) as [err|].
  - simpl. intros [= <-]. simpl. split; [assumption|]. split; [reflexivity|discriminate].
  - rewrite !bind_run. unfold get_sess. cbn [fst snd]. intros Hout.
    destruct (retryLoop_bookmarks _ _ _ _ _ _ _ _ Hout) as (Hauto & _ & Hnone & Hsome).
    split; [congruence|]. split; assumption.
Qed.

(** C3: LastBookmarks with a pending auto-commit transaction first reads
    the bookmark of that transaction's connection into the session.  After
    a managed transaction that committed, and after the end of an
    auto-commit or an explicit transaction, it returns the bookmark the
    connection then exposed (the last one the server emitted); after a
    managed transaction that failed, and when the connection exposes no
    bookmark, it returns what it returned before. *)
Theorem C3_LastBookmarks_follows_server (w : World X) :
  (forall tx, autocommitTx (sess w) = Some tx ->
     let b := conn_Bookmark (at_conn tx) (ext w) in
     let bs := if String.eqb b "" then bookmarks (sess w) else [b] in
     LastBookmarks w
     = (bs, mkWorld (set_bookmarks bs (sess w)) (ext w)
                    (calls w ++ [CallBookmark (at_conn tx) b])))
  /\ (autocommitTx (sess w) = None -> LastBookmarks w = (bookmarks (sess w), w))
  /\ (forall fuel ctx mode work configurers out,
        explicitTx (sess w) = None ->
        (runRetriable fuel ctx mode work configurers w).1 = Some out ->
        let w0 := (finishPendingAutocommit ctx w).2 in
        let w' := (runRetriable fuel ctx mode work configurers w).2 in
        (forall x, out.1 = Some x ->
           exists c h b ret pre,
             calls w' = calls w0 ++ pre ++ [CallTxCommit ctx c h None; CallBookmark c b;
                                           CallReturn ctx c ret]
             /\ (b <> "" -> (LastBookmarks w').1 = [b])
             /\ (b = "" -> (LastBookmarks w').1 = (LastBookmarks w0).1))
        /\ (out.1 = None -> (LastBookmarks w').1 = (LastBookmarks w0).1))
  /\ (forall tx : autocommitTransaction,
        let b := conn_Bookmark (at_conn tx) (ext w) in
        let w' := (autocommit_onClosed tx w).2 in
        (b <> "" -> (LastBookmarks w').1 = [b])
        /\ (b = "" -> (LastBookmarks w').1 = bookmarks (sess w)))
  /\ (forall tx : explicitTransaction,
        autocommitTx (sess w) = None ->
        let b := conn_Bookmark (et_conn tx) (ext w) in
        let w' := (explicit_onClosed tx w).2 in
        (b <> "" -> (LastBookmarks w').1 = [b])
        /\ (b = "" -> (LastBookmarks w').1 = bookmarks (sess w))).
Proof.
  split; [|split; [apply LastBookmarks_idle|split; [|split]]].
  - intros tx Htx b bs. apply (LastBookmarks_pending tx w Htx).
  - intros fuel ctx mode work configurers out Hexp Hout w0 w'.
    destruct (runRetriable_bookmarks fuel ctx mode work configurers w out Hexp Hout)
      as (Hidle' & Hnone & Hsome).
    destruct (finishPendingAutocommit_idle ctx w) as (Hidle0 & _).
    fold w0 in Hidle0, Hnone, Hsome. fold w' in Hidle', Hnone, Hsome.
    rewrite (LastBookmarks_idle w' Hidle'), (LastBookmarks_idle w0 Hidle0). simpl.
    split; [|exact Hnone].
    intros x Hx. destruct (Hsome x Hx) as (_ & c & h & b & ret & pre & Hc & Hb).
    exists c, h, b, ret, pre. split; [exact Hc|]. rewrite Hb. unfold bookmarksAfter.
    split.
    + intros Hne. apply String.eqb_neq in Hne. now rewrite Hne.
    + intros ->. reflexivity.
  - intros tx b w'. subst w'. rewrite autocommit_onClosed_run.
    rewrite LastBookmarks_idle by reflexivity. simpl. fold b.
    unfold bookmarksAfter. split.
    + intros Hne. apply String.eqb_neq in Hne. now rewrite Hne.
    + intros ->. reflexivity.
  - intros tx Hidle b w'. subst w'. rewrite explicit_onClosed_run.
    rewrite LastBookmarks_idle by exact Hidle. simpl. fold b.
    unfold bookmarksAfter. split.
    + intros Hne. apply String.eqb_neq in Hne. now rewrite Hne.
    + intros ->. reflexivity.
Qed.

(** ** Leaving the retry loop *)

(** A run of the loop that ends without a result was stopped by [Continue]
    after a failure: the last error was not retryable, or the deadline was
    exceeded; the error returned is the TransactionExecutionLimit error in
    the retryable case and the wrapped last error otherwise. *)
Lemma retryLoop_error_shape fuel ctx mode config work st (w : World X) out :
  (retryLoop fuel ctx mode config work st w).1 = Some out ->
  out.1 = None ->
  exists (e : Error) (st0 : retry.State) (now : Z),
    retry.LastErr st0 = Some e
    /\ negb (retry.LastErrWasRetryable st0) || retry.deadlineExceeded st0 now = true
    /\ out.2 = Some (if retry.LastErrWasRetryable st0
                     then TransactionExecutionLimit (retry.Errs st0 ++ [e])
                                                    (retry.Causes (retry.tracked st0 e))
                     else wrapError e).
Proof.
  revert st w. induction fuel as [|fuel IH]; intros st w; simpl; [discriminate|].
  rewrite bind_run, Continue_run.
  assert (Hattempt : forall st1 w1,
             ((let* '(tryAgain, result, st2) :=
                     executeTransactionFunction ctx mode config st1 work in
               if tryAgain then retryLoop fuel ctx mode config work st2
               else ret (Some (result, None))) w1).1 = Some out ->
             out.1 = None ->
             exists (e : Error) (st0 : retry.State) (now : Z),
               retry.LastErr st0 = Some e
               /\ negb (retry.LastErrWasRetryable st0) || retry.deadlineExceeded st0 now = true
               /\ out.2 = Some (if retry.LastErrWasRetryable st0
                                then TransactionExecutionLimit
                                       (retry.Errs st0 ++ [e])
                                       (retry.Causes (retry.tracked st0 e))
                                else wrapError e)).
  { intros st1 w1. rewrite bind_run.
    destruct (executeTransactionFunction_outcome ctx mode config st1 work w1)
      as (_ & _ & _ & Hok).
    destruct (executeTransactionFunction ctx mode config st1 work w1)
      as [[[tryAgain result] st2] w2]. simpl in *.
    destruct tryAgain; [apply IH|].
    intros [= <-] Hnone. simpl in Hnone.
    destruct (Hok eq_refl) as (_ & (v & Hv) & _). congruence. }
  destruct (retry.LastErr st) as [e|] eqn:Herr; simpl.
  - destruct (retry.LastErrWasRetryable st) eqn:Hretry; simpl.
    + destruct (retry.deadlineExceeded st (sess_now (ext w))) eqn:Hdead; simpl.
      * rewrite bind_run. unfold retriesExhausted. simpl. rewrite Hretry, bind_run.
        simpl. intros [= <-] _. exists e, st, (sess_now (ext w)).
        rewrite Hretry, Hdead. repeat split; assumption.
      * apply Hattempt.
    + rewrite bind_run. unfold retriesExhausted. simpl. rewrite Hretry, Herr.
      rewrite bind_run.
      destruct (wrapError e) eqn:Hwrap; simpl; intros [= <-] _; exists e, st, 0;
        rewrite Hretry, Hwrap.
      all: repeat split; assumption.
  - apply Hattempt.
Qed.


(** ** Acquisition of a connection *)

(** C5 (amended): [getConnection] borrows at most once, and exactly once
    when it yields a connection.  With an acquisition timeout of 0 the
    borrow gets the caller's context and is told not to wait; with a
    negative timeout it gets the caller's context and is told to wait; with
    a positive timeout it is told to wait under the caller's context
    bounded by that timeout, counted from the call. *)
Theorem C5_acquisition_timeout_and_borrow ctx mode l (w : World X) :
  let timeout := ConnectionAcquisitionTimeout (config (sess w)) in
  let r := getConnection ctx mode l w in
  exists es,
    calls r.2 = calls w ++ es
    /\ (length (borrowCalls es) <= 1)%nat
    /\ (forall conn, r.1 = inr conn -> length (borrowCalls es) = 1%nat)
    /\ (forall c wait, In (c, wait) (borrowCalls es) ->
          (timeout = 0 -> c = ctx /\ wait = false)
          /\ (timeout < 0 -> c = ctx /\ wait = true)
          /\ (0 < timeout ->
              wait = true
              /\ c = context_WithTimeout (time_Now (ext w)) ctx timeout
              /\ (ctx_deadline ctx = None ->
                  ctx_deadline c = Some (time_Now (ext w) + timeout)))).
Proof.
  intros timeout r.
  destruct (getConnection_effect ctx mode l w) as (_ & es & Hcalls & Hborrow & Hconn & _).
  fold timeout in Hborrow, Hconn. exists es. split; [exact Hcalls|].
  split; [destruct Hborrow as [-> | ->]; simpl; lia|].
  split; [intros conn Hr; rewrite (Hconn conn Hr); reflexivity|].
  intros c wait Hin.
  assert ((c, wait) = (if Z.ltb 0 timeout
                       then context_WithTimeout (time_Now (ext w)) ctx timeout else ctx,
                       negb (Z.eqb timeout 0))) as [= -> ->].
  { destruct Hborrow as [Hb | Hb]; rewrite Hb in Hin; simpl in Hin;
      [contradiction | destruct Hin as [<- | []]; reflexivity]. }
  destruct (Z.ltb_spec 0 timeout) as [Hpos|Hnonpos];
    destruct (Z.eqb_spec timeout 0) as [Hzero|Hnz]; simpl.
  - lia.
  - repeat split; try lia. intros Hnone. now rewrite Hnone.
  - repeat split; try lia; reflexivity.
  - repeat split; try lia; reflexivity.
Qed.

(** ** Resolution of the home database *)







(** ** An invalid configuration and the pending auto-commit transaction *)

(** C10: with a pending auto-commit transaction and no explicit one, an
    operation given a negative timeout other than the sentinel first
    finishes the pending transaction (the stream is discarded, the bookmark
    of the connection is retrieved, the connection is returned and the
    session forgets the transaction) and only then fails with the usage
    error. *)
Theorem C10_invalid_timeout_after_autocommit_finalized
        (w : World X) (tx : autocommitTransaction) (ctx : Context)
        (configurers : list (TransactionConfig -> TransactionConfig))
        (cypher : string) (params : list (string * Value))
        (work : ManagedTransactionWork X) (fuel : nat) :
  explicitTx (sess w) = None ->
  autocommitTx (sess w) = Some tx ->
  Timeout (applyConfigurers configurers) < 0 ->
  Timeout (applyConfigurers configurers) <> MinInt ->
  let err := UsageError (negativeTimeoutMessage (Timeout (applyConfigurers configurers))) in
  let c := at_conn tx in
  let str := res_stream (at_res tx) in
  let d := conn_Consume ctx c str (ext w) in
  let b := conn_Bookmark c d.2 in
  let r := pool_Return (at_ctx tx) c d.2 in
  let w' := mkWorld (set_autocommitTx None
                       (set_bookmarks (bookmarksAfter (bookmarks (sess w)) b) (sess w)))
                    r.2
                    (calls w ++ [CallConsume ctx c str d.1; CallBookmark c b;
                                 CallReturn (at_ctx tx) c r.1]) in
  BeginTransaction ctx configurers w = (inl err, w')
  /\ Run ctx cypher params configurers w = (inl err, w')
  /\ ExecuteRead fuel ctx work configurers w = (Some (None, Some err), w')
  /\ ExecuteWrite fuel ctx work configurers w = (Some (None, Some err), w')
  /\ autocommitTx (sess w') = None
  /\ autocommitTx (sess w') <> autocommitTx (sess w).
Proof.
  intros Hexp Hauto Hneg Hsent err c str d b r w'.
  pose proof (validate_rejects _ Hneg Hsent) as Hval.
  destruct (operations_reject_invalid_config w ctx configurers cypher params work fuel
              _ Hexp Hval) as (HB & HR & HER & HEW).
  rewrite (finishPendingAutocommit_some ctx tx w Hauto), autocommit_done_run in HB, HR, HER, HEW.
  repeat split; try assumption.
  simpl. rewrite Hauto. discriminate.
Qed.

End Facts.

(** ** The receive-timeout hint *)

(** C8: after HELLO the read timeout is the hint in seconds when the hint
    is a positive integer, and the default -1 for every other shape of the
    hint, the absent one included. *)
Theorem C8_read_timeout_hint (hints : gmap string Value) :
  (forall n, hints !! readTimeoutHintName = Some (VInt n) -> 0 < n ->
             connReadTimeoutAfterHello hints = n * Second)
  /\ ((forall n, hints !! readTimeoutHintName = Some (VInt n) -> n <= 0) ->
      connReadTimeoutAfterHello hints = -1)
  /\ (connReadTimeoutAfterHello hints <> -1 <->
      exists n, hints !! readTimeoutHintName = Some (VInt n) /\ 0 < n).
Proof.
  unfold connReadTimeoutAfterHello, initializeReadTimeoutHint, defaultReadTimeout.
  destruct (hints !! readTimeoutHintName) as [v|] eqn:Hhint.
  2: { split; [intros n [=]|]. split; [reflexivity|].
       split; [intros Hc; now destruct Hc | intros (n & [=] & _)]. }
  destruct v as [| b | i | m e | s | l | m];
    try (split; [intros n [=]|]; split; [reflexivity|];
         split; [intros Hc; now destruct Hc | intros (n & [=] & _)]).
  destruct (Z.leb_spec i 0) as [Hle|Hgt].
  - split; [intros n [= <-]; lia|]. split; [reflexivity|].
    split; [intros Hc; now destruct Hc | intros (n & [= <-] & Hn); lia].
  - split; [intros n [= <-] _; reflexivity|].
    split; [intros Hall; specialize (Hall i eq_refl); lia|].
    split; [intros _; eauto | intros _; unfold Second; lia].
Qed.

Example hint_42 :
  connReadTimeoutAfterHello {[ readTimeoutHintName := VInt 42 ]} = 42 * Second.
Proof. reflexivity. Qed.

Example hint_float :
  connReadTimeoutAfterHello {[ readTimeoutHintName := VFloat 42 (-1) ]} = -1.
Proof. reflexivity. Qed.

Example hint_string :
  connReadTimeoutAfterHello {[ readTimeoutHintName := VString "42" ]} = -1.
Proof. reflexivity. Qed.

Example hint_negative :
  connReadTimeoutAfterHello {[ readTimeoutHintName := VInt (-42) ]} = -1.
Proof. reflexivity. Qed.

Example hint_absent : connReadTimeoutAfterHello ∅ = -1.
Proof. reflexivity. Qed.

(** ** Concrete runs on the scripted world *)

Import Scripted.

Lemma C1_witness :
  explicitTx (sess explicitWorld) = Some tx0
  /\ (BeginTransaction Background [] explicitWorld).1
     = inl (UsageError "Session already has a pending transaction")
  /\ sess (BeginTransaction Background [] explicitWorld).2 = sess explicitWorld.
Proof.
  split; [reflexivity|].
  destruct (C1_pending_explicit_transaction_rejected
              explicitWorld tx0 Background [] "RETURN 1" [] scriptedWork 3 eq_refl)
    as (HB & _).
  rewrite HB. split; reflexivity.
Defined.



(** With an acquisition timeout of 0 the pool is told not to wait. *)
Lemma C5_counterexample :
  let r := getConnection Background WriteMode DefaultLivenessCheckThreshold freshWorld in
  ConnectionAcquisitionTimeout (config (sess freshWorld)) = 0
  /\ ~ (forall c wait, In (c, wait) (borrowCalls (calls r.2)) -> wait = true).
Proof.
  intros r. split; [reflexivity|]. intros Hclaim.
  assert (Hin : In (Background, false) (borrowCalls (calls r.2)))
    by (vm_compute; left; reflexivity).
  specialize (Hclaim _ _ Hin). discriminate Hclaim.
Qed.

Lemma C10_witness :
  explicitTx (sess autocommitWorld) = None
  /\ autocommitTx (sess autocommitWorld) = Some auto0
  /\ Timeout (applyConfigurers [negativeTimeout]) < 0
  /\ Timeout (applyConfigurers [negativeTimeout]) <> MinInt
  /\ Run Background "RETURN 2" [] [negativeTimeout] autocommitWorld
     = (inl (UsageError "Negative transaction timeouts are not allowed. Given: -5"),
        mkWorld (set_autocommitTx None (set_bookmarks ["bm-stream"%string] session0))
                (set_connBookmark "bm-stream" world0)
                [CallConsume Background 1%nat 3%nat None;
                 CallBookmark 1%nat "bm-stream";
                 CallReturn Background 1%nat None]).
Proof.
  assert (Hneg : Timeout (applyConfigurers [negativeTimeout]) < 0) by (simpl; lia).
  assert (Hsent : Timeout (applyConfigurers [negativeTimeout]) <> MinInt)
    by (simpl; unfold MinInt; lia).
  split; [reflexivity|]. split; [reflexivity|]. split; [exact Hneg|]. split; [exact Hsent|].
  destruct (C10_invalid_timeout_after_autocommit_finalized
              autocommitWorld auto0 Background [negativeTimeout] "RETURN 2" []
              scriptedWork 3 eq_refl eq_refl Hneg Hsent) as (_ & HR & _).
  rewrite HR. reflexivity.
Defined.

(** A managed transaction that is retried once and then commits. *)
Example retried_then_committed :
  let r := ExecuteWrite 5 Background scriptedWork []
             (mkWorld session0 (set_workScript [inl transient; inr (VInt 1)] world0) []) in
  r.1 = Some (Some (VInt 1), None)
  /\ workCalls (calls r.2) = 2%nat
  /\ (LastBookmarks r.2).1 = ["bm-commit"%string]
  /\ resolveResults (calls r.2) = [inr "neo4j"%string].
Proof. vm_compute. repeat split. Qed.

(** A managed transaction whose only attempt fails for good keeps the
    bookmarks of the session. *)
Example failed_keeps_bookmarks :
  let r := ExecuteWrite 5 Background scriptedWork []
             (mkWorld session0 (set_workScript [inl fatal] world0) []) in
  r.1 = Some (None, Some fatal)
  /\ (LastBookmarks r.2).1 = ["bm0"%string].
Proof. vm_compute. repeat split. Qed.

(** * Further properties of the session *)

Ltac run_case :=
  match goal with
  | |- context [match ?x with _ => _ end] =>
      lazymatch x with
      | context [match _ with _ => _ end] => fail
      | negb ?y => destruct y eqn:?
      | _ => destruct x eqn:?
      end
  end.

Ltac run_step :=
  first
    [ rewrite bind_run
    | rewrite call_run
    | progress (unfold ret, get_sess, observe, modify_sess, logError)
    | progress simpl
    | run_case ].

Ltac run := repeat run_step.

(** Close the cases whose case distinctions contradict each other. *)
Ltac absurd_case :=
  match goal with
  | H : false = true |- _ => discriminate H
  | H : true = false |- _ => discriminate H
  end.

(** Turn a membership in an explicit list into its cases. *)
Ltac in_cases H :=
  simpl in H;
  repeat match type of H with
         | _ \/ _ => destruct H as [H|H]
         | False => destruct H
         end;
  try discriminate H; try (injection H as; subst).

Lemma balance_app (l1 l2 : list Call) : balance (l1 ++ l2) = balance l1 + balance l2.
Proof.
  induction l1 as [|c l1 IH]; simpl; [reflexivity|].
  destruct c; try assumption; try lia. destruct res; lia.
Qed.

Lemma empty_not_In_filter (bs : list string) :
  ~ In ""%string (List.filter nonEmpty bs).
Proof. intros Hin. apply filter_In in Hin. destruct Hin as [_ Hne]. discriminate. Qed.

Lemma hasBad_In (bs : list string) : hasBad bs = true <-> In ""%string bs.
Proof.
  induction bs as [|b rest IH]; simpl; [split; [discriminate|contradiction]|].
  rewrite length_zero_empty. destruct (String.eqb_spec b "") as [->|Hne].
  - split; auto.
  - rewrite IH. split; [auto|]. intros [Heq|Hin]; [congruence|assumption].
Qed.

(** X1: [cleanupBookmarks] returns its argument exactly when that holds no empty
    bookmark, its result never holds one, it never reorders or adds
    (it is a sublist of the argument), and cleaning twice is cleaning
    once. *)
Theorem cleanupBookmarks_fixpoint (bs : list string) :
  (cleanupBookmarks bs = bs <-> ~ In ""%string bs)
  /\ ~ In ""%string (cleanupBookmarks bs)
  /\ sublist (cleanupBookmarks bs) bs
  /\ cleanupBookmarks (cleanupBookmarks bs) = cleanupBookmarks bs.
Proof.
  assert (Hclean : ~ In ""%string (cleanupBookmarks bs))
    by (rewrite cleanupBookmarks_filter; apply empty_not_In_filter).
  split; [|split; [exact Hclean|split]].
  - split.
    + intros Heq. rewrite <- Heq. exact Hclean.
    + intros Hno. unfold cleanupBookmarks.
      destruct (hasBad bs) eqn:Hbad; [|reflexivity].
      apply hasBad_In in Hbad. contradiction.
  - rewrite cleanupBookmarks_filter. clear Hclean.
    induction bs as [|b rest IH]; simpl; [constructor|].
    destruct (nonEmpty b); [now apply sublist_skip | now apply sublist_cons].
  - unfold cleanupBookmarks at 1.
    destruct (hasBad (cleanupBookmarks bs)) eqn:Hbad; [|reflexivity].
    apply hasBad_In in Hbad. contradiction.
Qed.

Section MoreFacts.

Context {X : Type}.
Context `{!sessionRouter X, !sessionPool X, !Connection X, !Runtime X}.

#[local] Abbreviation M := (M X).

(** [lastBookmark] does to the session what [LastBookmarks] does and
    returns the last bookmark of the set [LastBookmarks] returns, or the
    empty string when that set is empty. *)
Theorem lastBookmark_last_of_LastBookmarks (w : World X) :
  lastBookmark w = (List.last (LastBookmarks w).1 ""%string, (LastBookmarks w).2)
  /\ ((LastBookmarks w).1 = [] -> (lastBookmark w).1 = ""%string).
Proof.
  assert (Heq : lastBookmark w
                = (List.last (LastBookmarks w).1 ""%string, (LastBookmarks w).2)).
  { unfold lastBookmark, LastBookmarks. rewrite !bind_run. reflexivity. }
  split; [exact Heq|]. intros Hnil. rewrite Heq, Hnil. reflexivity.
Qed.

(** ** Acquisition, step by step *)

Lemma getConnection_log (ctx : Context) (mode : AccessMode) (l : Duration) (w : World X) :
  let r := getConnection ctx mode l w in
  let db := databaseName (sess r.2) in
  exists es,
    calls r.2 = calls w ++ es
    /\ balance es = match r.1 with inr _ => 1 | inl _ => 0 end
    /\ selectCalls es = match r.1 with
                        | inr c => if String.eqb db "" then [] else [(c, db)]
                        | inl _ => []
                        end
    /\ (lookupModes es = [] \/ lookupModes es = [mode])
    /\ (forall servers lv res, In (servers, lv, res) (borrowDetails es) ->
        lookupResults es = [inr servers] /\ lv = l
        /\ borrowDetails es = [(servers, lv, res)])
    /\ (forall c, r.1 = inr c ->
        (exists servers, borrowDetails es = [(servers, l, inr c)])
        /\ (String.eqb db "" = false -> conn_isDatabaseSelector c = true))
    /\ (txBeginConfigs es = [] /\ commitResults es = [] /\ workResults es = [])
    /\ (forall e, (In (inl e) (resolveResults es) \/ In (inl e) (lookupResults es)
                   \/ exists servers lv, In (servers, lv, inl e) (borrowDetails es)) ->
        r.1 = inl (wrapError e))
    /\ (forall e, r.1 = inl e ->
        (exists e', e = wrapError e'
                    /\ (In (inl e') (resolveResults es) \/ In (inl e') (lookupResults es)
                        \/ exists servers lv, In (servers, lv, inl e') (borrowDetails es)))
        \/ (e = multiDatabaseError
            /\ String.eqb db "" = false
            /\ exists servers c,
                borrowDetails es = [(servers, l, inr c)]
                /\ conn_isDatabaseSelector c = false
                /\ exists ctx' res, last es = Some (CallReturn ctx' c res))).
Proof.
  unfold getConnection, acquisitionContext, resolveHomeDatabase, getServers,
    DefaultDatabase.
  run.
  all: try absurd_case.
  all: eexists; split; [rewrite <- ?app_assoc; try reflexivity; symmetry; apply app_nil_r|].
  all: simpl; rewrite ?Heqb, ?Heqb0, ?Heqb1, ?Heqb2, ?Heqb3, ?Heqb4.
  all: split; [try reflexivity|].
  all: split; [try reflexivity|].
  all: split; [first [left; reflexivity | right; destruct mode; first [reflexivity|discriminate]]|].
  all: split; [intros servers lv res Hin; in_cases Hin; repeat split; congruence|].
  all: split; [intros c' Hc;
               first [ discriminate Hc
                     | injection Hc as <-;
                       split; [eexists; reflexivity
                              | intros Hdb; first [discriminate Hdb|assumption]] ]|].
  all: split; [repeat split; reflexivity|].
  all: split; [intros e' Hin; destruct Hin as [Hin|[Hin|(servers & lv & Hin)]];
               in_cases Hin; reflexivity|].
  all: intros e' He; try discriminate He; injection He as <-.
  all: first
         [ left; eexists; split; [reflexivity|]; simpl;
           first [ left; left; reflexivity
                 | right; left; left; reflexivity
                 | right; right; do 2 eexists; left; reflexivity ]
         | right; split; [reflexivity|]; split; [first [reflexivity|assumption]|];
           do 2 eexists; split; [reflexivity|]; split; [assumption|];
           do 2 eexists; reflexivity ].
Qed.

(** X2: [getConnection] holds exactly the connection it yields: when it yields
    one, that is the one connection it borrowed, with the liveness
    threshold it was given, and it was not returned; when it fails, every
    connection it borrowed has been returned. *)
Theorem getConnection_holds_what_it_yields
        (ctx : Context) (mode : AccessMode) (l : Duration) (w : World X) :
  let r := getConnection ctx mode l w in
  exists es,
    calls r.2 = calls w ++ es
    /\ match r.1 with
       | inr c => balance es = 1 /\ exists servers, borrowDetails es = [(servers, l, inr c)]
       | inl _ => balance es = 0
       end.
Proof.
  intros r.
  destruct (getConnection_log ctx mode l w) as (es & Hcalls & Hbal & _ & _ & _ & Hconn & _).
  exists es. split; [exact Hcalls|]. fold r in Hbal, Hconn.
  destruct r.1 as [e|c]; [exact Hbal|]. split; [exact Hbal|].
  apply (Hconn c eq_refl).
Qed.

(** X3: [getConnection] selects the session's database on the connection it
    yields exactly when that database is not the default one, and then the
    connection is one that can select a database; nothing is selected when
    it fails. *)
Theorem getConnection_selects_database
        (ctx : Context) (mode : AccessMode) (l : Duration) (w : World X) :
  let r := getConnection ctx mode l w in
  let db := databaseName (sess r.2) in
  exists es,
    calls r.2 = calls w ++ es
    /\ match r.1 with
       | inr c =>
           if String.eqb db DefaultDatabase then selectCalls es = []
           else selectCalls es = [(c, db)] /\ conn_isDatabaseSelector c = true
       | inl _ => selectCalls es = []
       end.
Proof.
  intros r db.
  destruct (getConnection_log ctx mode l w) as (es & Hcalls & _ & Hsel & _ & _ & Hconn & _).
  exists es. split; [exact Hcalls|]. fold r in Hsel, Hconn. fold db in Hsel, Hconn.
  unfold DefaultDatabase.
  destruct r.1 as [e|c]; [exact Hsel|].
  destruct (String.eqb db "") eqn:Hdb; [exact Hsel|].
  split; [exact Hsel|]. now apply (Hconn c eq_refl).
Qed.

(** X4: [getConnection] asks the router only for the servers of the mode it was
    given, and what it hands to the pool is the router's answer and the
    liveness threshold it was given. *)
Theorem getConnection_routes_by_mode
        (ctx : Context) (mode : AccessMode) (l : Duration) (w : World X) :
  let r := getConnection ctx mode l w in
  exists es,
    calls r.2 = calls w ++ es
    /\ Forall (fun m => m = mode) (lookupModes es)
    /\ (forall servers lv res, In (servers, lv, res) (borrowDetails es) ->
        lookupResults es = [inr servers] /\ lv = l).
Proof.
  intros r.
  destruct (getConnection_log ctx mode l w) as (es & Hcalls & _ & _ & Hmode & Hborrow & _).
  exists es. split; [exact Hcalls|]. split.
  - destruct Hmode as [-> | ->]; repeat constructor.
  - intros servers lv res Hin. destruct (Hborrow servers lv res Hin) as (Hl & Hlv & _).
    split; assumption.
Qed.

(** X5: A failure of the router (home database or server lookup) or of the
    pool ends [getConnection] with that error, wrapped; a failure of
    [getConnection] is such a wrapped error, or it is the usage error for a
    borrowed connection that cannot select the session's database, which is
    returned to the pool last. *)
Theorem getConnection_failure_is_reported
        (ctx : Context) (mode : AccessMode) (l : Duration) (w : World X) :
  let r := getConnection ctx mode l w in
  let db := databaseName (sess r.2) in
  exists es,
    calls r.2 = calls w ++ es
    /\ (forall e, (In (inl e) (resolveResults es) \/ In (inl e) (lookupResults es)
                   \/ exists servers lv, In (servers, lv, inl e) (borrowDetails es)) ->
        r.1 = inl (wrapError e))
    /\ (forall e, r.1 = inl e ->
        (exists e', e = wrapError e'
                    /\ (In (inl e') (resolveResults es) \/ In (inl e') (lookupResults es)
                        \/ exists servers lv, In (servers, lv, inl e') (borrowDetails es)))
        \/ (e = UsageError "Database does not support multi-database"
            /\ db <> DefaultDatabase
            /\ exists servers c,
                borrowDetails es = [(servers, l, inr c)]
                /\ conn_isDatabaseSelector c = false
                /\ exists ctx' res, last es = Some (CallReturn ctx' c res))).
Proof.
  intros r db.
  destruct (getConnection_log ctx mode l w)
    as (es & Hcalls & _ & _ & _ & _ & _ & _ & Hfail & Herr).
  exists es. split; [exact Hcalls|]. split; [exact Hfail|].
  intros e He. destruct (Herr e He) as [Hwrapped|(-> & Hdb & Hrest)]; [left; exact Hwrapped|].
  right. split; [reflexivity|]. split; [|exact Hrest].
  apply String.eqb_neq. exact Hdb.
Qed.

Lemma getServerInfo_log (ctx : Context) (w : World X) :
  let r := getServerInfo ctx w in
  let timeout := ConnectionAcquisitionTimeout (config (sess w)) in
  resolvedFrom (sess w) (sess r.2)
  /\ exists es,
      calls r.2 = calls w ++ es
      /\ balance es = 0
      /\ selectCalls es = []
      /\ Forall (fun m => m = ReadMode) (lookupModes es)
      /\ (forall c wait, In (c, wait) (borrowCalls es) ->
          c = ctx /\ wait = negb (Z.eqb timeout 0))
      /\ (forall servers lv res, In (servers, lv, res) (borrowDetails es) ->
          lookupResults es = [inr servers] /\ lv = 0)
      /\ (forall info, r.1 = inr info ->
          exists servers c xb ret,
            borrowDetails es = [(servers, 0, inr c)]
            /\ info = mkServerInfo (conn_ServerName c xb) (conn_ServerVersion c xb)
                                   (conn_Version c xb)
            /\ last es = Some (CallReturn ctx c ret)
            /\ ext r.2 = (pool_Return ctx c xb).2)
      /\ (forall e, r.1 = inl e -> borrowDetails es = []
                                   \/ exists servers lv e', borrowDetails es = [(servers, lv, inl e')]).
Proof.
  unfold resolvedFrom, getServerInfo, resolveHomeDatabase, getServers. run.
  all: try absurd_case.
  all: split; [first [left; reflexivity | right; eexists; split; reflexivity]|].
  all: eexists; split; [rewrite <- ?app_assoc; try reflexivity; symmetry; apply app_nil_r|].
  all: simpl.
  all: split; [reflexivity|]. all: split; [reflexivity|].
  all: split; [repeat constructor|].
  all: split; [intros c' wait Hin; in_cases Hin; split; reflexivity|].
  all: split; [intros servers lv res Hin; in_cases Hin; split; reflexivity|].
  all: split; [intros info Hinfo; first [discriminate Hinfo
                                        | injection Hinfo as <-; do 4 eexists;
                                          repeat split; reflexivity]|].
  all: intros e' He; first [discriminate He | left; reflexivity
                            | right; do 3 eexists; reflexivity].
Qed.

(** X6: [getServerInfo] borrows under the caller's own context (no acquisition
    deadline is derived), with liveness threshold 0, asking the router for
    readers; it never selects a database; it returns whatever it borrowed,
    and answers with the name and versions the borrowed connection reported
    before it was returned; of the session it may only resolve the home
    database. *)
Theorem getServerInfo_borrows_and_returns (ctx : Context) (w : World X) :
  let r := getServerInfo ctx w in
  let timeout := ConnectionAcquisitionTimeout (config (sess w)) in
  bookmarks (sess r.2) = bookmarks (sess w)
  /\ explicitTx (sess r.2) = explicitTx (sess w)
  /\ autocommitTx (sess r.2) = autocommitTx (sess w)
  /\ exists es,
      calls r.2 = calls w ++ es
      /\ balance es = 0
      /\ selectCalls es = []
      /\ Forall (fun m => m = ReadMode) (lookupModes es)
      /\ (forall c wait, In (c, wait) (borrowCalls es) ->
          c = ctx /\ wait = negb (Z.eqb timeout 0))
      /\ (forall servers lv res, In (servers, lv, res) (borrowDetails es) ->
          lookupResults es = [inr servers] /\ lv = 0)
      /\ (forall info, r.1 = inr info ->
          exists servers c xb ret,
            borrowDetails es = [(servers, 0, inr c)]
            /\ info = mkServerInfo (conn_ServerName c xb) (conn_ServerVersion c xb)
                                   (conn_Version c xb)
            /\ last es = Some (CallReturn ctx c ret)
            /\ ext r.2 = (pool_Return ctx c xb).2).
Proof.
  intros r timeout.
  destruct (getServerInfo_log ctx w)
    as (Hsess & es & Hcalls & Hbal & Hsel & Hmode & Hctx & Hborrow & Hinfo & _).
  apply resolvedFrom_frame in Hsess. destruct Hsess as (Hbm & Hauto & Hexp & _).
  repeat (split; [assumption|]).
  exists es. repeat (split; [assumption|]). exact Hinfo.
Qed.

(** ** Beginning a transaction, running a query *)

Lemma txBeginConfigs_app (l1 l2 : list Call) :
  txBeginConfigs (l1 ++ l2) = txBeginConfigs l1 ++ txBeginConfigs l2.
Proof.
  induction l1 as [|c l1 IH]; simpl; [reflexivity|]. destruct c; simpl; now rewrite ?IH.
Qed.

Lemma borrowDetails_app (l1 l2 : list Call) :
  borrowDetails (l1 ++ l2) = borrowDetails l1 ++ borrowDetails l2.
Proof.
  induction l1 as [|c l1 IH]; simpl; [reflexivity|]. destruct c; simpl; now rewrite ?IH.
Qed.

Lemma lookupModes_app (l1 l2 : list Call) :
  lookupModes (l1 ++ l2) = lookupModes l1 ++ lookupModes l2.
Proof.
  induction l1 as [|c l1 IH]; simpl; [reflexivity|]. destruct c; simpl; now rewrite ?IH.
Qed.

Lemma workResults_app (l1 l2 : list Call) :
  workResults (l1 ++ l2) = workResults l1 ++ workResults l2.
Proof.
  induction l1 as [|c l1 IH]; simpl; [reflexivity|]. destruct c; simpl; now rewrite ?IH.
Qed.

Lemma commitResults_app (l1 l2 : list Call) :
  commitResults (l1 ++ l2) = commitResults l1 ++ commitResults l2.
Proof.
  induction l1 as [|c l1 IH]; simpl; [reflexivity|]. destruct c; simpl; now rewrite ?IH.
Qed.

Lemma resolvedFrom_fields (s s' : sessionWithContext) :
  resolvedFrom s s' ->
  defaultMode s' = defaultMode s /\ impersonatedUser s' = impersonatedUser s
  /\ fetchSize s' = fetchSize s.
Proof. intros [->|(db & _ & ->)]; repeat split; reflexivity. Qed.

Lemma lookupModes_one (m : AccessMode) (l : list AccessMode) :
  l = [] \/ l = [m] -> Forall (fun x => x = m) l.
Proof. intros [-> | ->]; repeat constructor. Qed.

Lemma BeginTransaction_effect
      (ctx : Context) (configurers : list (TransactionConfig -> TransactionConfig))
      (w : World X) :
  explicitTx (sess w) = None ->
  let w0 := (finishPendingAutocommit ctx w).2 in
  let config := applyConfigurers configurers in
  let txc := sessionTxConfig (sess w0) (defaultMode (sess w0)) config in
  let r := BeginTransaction ctx configurers w in
  exists es,
    calls r.2 = calls w0 ++ es
    /\ bookmarks (sess r.2) = bookmarks (sess w0)
    /\ autocommitTx (sess r.2) = None
    /\ Forall (fun c => c = txc) (txBeginConfigs es)
    /\ Forall (fun m => m = defaultMode (sess w0)) (lookupModes es)
    /\ match r.1 with
       | inr tx =>
           explicitTx (sess r.2) = Some tx
           /\ balance es = 1
           /\ validateTransactionConfig config = None
           /\ et_fetchSize tx = fetchSize (sess w0)
           /\ et_ctx tx = ctx
           /\ last es = Some (CallTxBegin ctx (et_conn tx) txc (inr (et_txHandle tx)))
           /\ exists servers,
               borrowDetails es = [(servers, DefaultLivenessCheckThreshold, inr (et_conn tx))]
       | inl e => explicitTx (sess r.2) = None /\ balance es = 0
       end.
Proof.
  intros Hexp w0 config txc r. subst r. unfold BeginTransaction.
  rewrite bind_run. unfold get_sess. cbn [fst snd]. rewrite Hexp.
  rewrite bind_run. fold w0. fold config.
  destruct (finishPendingAutocommit_idle ctx w) as (Hidle & Hexp0).
  fold w0 in Hidle, Hexp0. rewrite Hexp in Hexp0.
  destruct (validateTransactionConfig config) as [err|] eqn:Hval.
  { exists []. simpl. rewrite app_nil_r. repeat split; auto. }
  rewrite bind_run. cbn [fst snd]. rewrite bind_run.
  destruct (getConnection_log ctx (defaultMode (sess w0)) DefaultLivenessCheckThreshold w0)
    as (esG & HcG & HbalG & _ & HmodeG & _ & HconnG & (HtxG & _ & _) & _).
  destruct (getConnection_effect ctx (defaultMode (sess w0)) DefaultLivenessCheckThreshold w0)
    as (Hres & _).
  pose proof (resolvedFrom_fields _ _ Hres) as (Hdm & Himp & Hfs).
  apply resolvedFrom_frame in Hres. destruct Hres as (Hbm & Hauto & Hexp1 & _).
  apply lookupModes_one in HmodeG.
  set (w1 := (getConnection ctx (defaultMode (sess w0))
                            DefaultLivenessCheckThreshold w0).2) in *.
  destruct (getConnection ctx (defaultMode (sess w0)) DefaultLivenessCheckThreshold w0).1
    as [err|conn].
  { exists esG. simpl. rewrite HtxG. repeat split; auto; congruence. }
  destruct (HconnG conn eq_refl) as ((servers & HborG) & _).
  assert (Htxc : sessionTxConfig (sess w1) (defaultMode (sess w1)) config = txc).
  { unfold txc, sessionTxConfig. now rewrite Hbm, Hdm, Himp. }
  run.
  - exists (esG ++ [CallTxBegin ctx conn txc (inl e)]
                ++ [CallReturn ctx conn
                      (pool_Return ctx conn
                         (conn_TxBegin ctx conn
                            (sessionTxConfig (sess w1) (defaultMode (sess w1)) config)
                            (ext w1)).2).1]).
    rewrite Htxc, HcG, <- !app_assoc. split; [reflexivity|].
    rewrite !txBeginConfigs_app, !lookupModes_app, !balance_app, HtxG, HbalG. simpl.
    rewrite app_nil_r.
    repeat split; auto; try congruence.
  - exists (esG ++ [CallTxBegin ctx conn txc (inr t)]).
    rewrite Htxc, HcG, <- !app_assoc. split; [reflexivity|].
    rewrite !txBeginConfigs_app, !lookupModes_app, !balance_app, borrowDetails_app,
      HtxG, HbalG, HborG, last_snoc. simpl. rewrite app_nil_r.
    repeat split; auto; try congruence; try (repeat constructor).
    exists servers. reflexivity.
Qed.

Lemma Run_effect
      (ctx : Context) (cypher : string) (params : list (string * Value))
      (configurers : list (TransactionConfig -> TransactionConfig)) (w : World X) :
  explicitTx (sess w) = None ->
  let w0 := (finishPendingAutocommit ctx w).2 in
  let config := applyConfigurers configurers in
  let txc := sessionTxConfig (sess w0) (defaultMode (sess w0)) config in
  let cmd := mkCommand cypher params (fetchSize (sess w0)) in
  let r := Run ctx cypher params configurers w in
  exists es,
    calls r.2 = calls w0 ++ es
    /\ bookmarks (sess r.2) = bookmarks (sess w0)
    /\ explicitTx (sess r.2) = None
    /\ txBeginConfigs es = []
    /\ Forall (fun m => m = defaultMode (sess w0)) (lookupModes es)
    /\ match r.1 with
       | inr res =>
           autocommitTx (sess r.2) = Some (mkAutocommitTransaction (res_conn res) res ctx)
           /\ balance es = 1
           /\ validateTransactionConfig config = None
           /\ res_cypher res = cypher /\ res_params res = params
           /\ last es = Some (CallRun ctx (res_conn res) cmd txc (inr (res_stream res)))
           /\ exists servers,
               borrowDetails es = [(servers, DefaultLivenessCheckThreshold, inr (res_conn res))]
       | inl e => autocommitTx (sess r.2) = None /\ balance es = 0
       end.
Proof.
  intros Hexp w0 config txc cmd r. subst r. unfold Run.
  rewrite bind_run. unfold get_sess. cbn [fst snd]. rewrite Hexp.
  rewrite bind_run. fold w0. fold config.
  destruct (finishPendingAutocommit_idle ctx w) as (Hidle & Hexp0).
  fold w0 in Hidle, Hexp0. rewrite Hexp in Hexp0.
  destruct (validateTransactionConfig config) as [err|] eqn:Hval.
  { exists []. simpl. rewrite app_nil_r. repeat split; auto. }
  rewrite bind_run. cbn [fst snd]. rewrite bind_run.
  destruct (getConnection_log ctx (defaultMode (sess w0)) DefaultLivenessCheckThreshold w0)
    as (esG & HcG & HbalG & _ & HmodeG & _ & HconnG & (HtxG & _ & _) & _).
  destruct (getConnection_effect ctx (defaultMode (sess w0)) DefaultLivenessCheckThreshold w0)
    as (Hres & _).
  pose proof (resolvedFrom_fields _ _ Hres) as (Hdm & Himp & Hfs).
  apply resolvedFrom_frame in Hres. destruct Hres as (Hbm & Hauto & Hexp1 & _).
  apply lookupModes_one in HmodeG.
  set (w1 := (getConnection ctx (defaultMode (sess w0))
                            DefaultLivenessCheckThreshold w0).2) in *.
  destruct (getConnection ctx (defaultMode (sess w0)) DefaultLivenessCheckThreshold w0).1
    as [err|conn].
  { exists esG. simpl. rewrite HtxG. repeat split; auto; congruence. }
  destruct (HconnG conn eq_refl) as ((servers & HborG) & _).
  assert (Htxc : sessionTxConfig (sess w1) (defaultMode (sess w1)) config = txc).
  { unfold txc, sessionTxConfig. now rewrite Hbm, Hdm, Himp. }
  assert (Hcmd : mkCommand cypher params (fetchSize (sess w1)) = cmd).
  { unfold cmd. now rewrite Hfs. }
  run.
  - exists (esG ++ [CallRun ctx conn cmd txc (inl e)]
                ++ [CallReturn ctx conn
                      (pool_Return ctx conn
                         (conn_Run ctx conn
                            (mkCommand cypher params (fetchSize (sess w1)))
                            (sessionTxConfig (sess w1) (defaultMode (sess w1)) config)
                            (ext w1)).2).1]).
    rewrite Htxc, Hcmd, HcG, <- !app_assoc. split; [reflexivity|].
    rewrite !txBeginConfigs_app, !lookupModes_app, !balance_app, HtxG, HbalG. simpl.
    rewrite app_nil_r.
    repeat split; auto; try congruence.
  - exists (esG ++ [CallRun ctx conn cmd txc (inr s)]).
    rewrite Htxc, Hcmd, HcG, <- !app_assoc. split; [reflexivity|].
    rewrite !txBeginConfigs_app, !lookupModes_app, !balance_app, borrowDetails_app,
      HtxG, HbalG, HborG, last_snoc. simpl. rewrite app_nil_r.
    repeat split; auto; try congruence.
    exists servers. reflexivity.
Qed.

(** X7: [BeginTransaction] owns a connection exactly when it succeeds.  With
    no explicit transaction pending, and seen from after the pre-flight of a
    pending auto-commit transaction: on success the session's pending
    explicit transaction is the one returned, on the one connection
    borrowed and not returned, with the session's fetch size; its last call
    begins the transaction with the session's default mode, bookmarks and
    impersonated user and the configured timeout and metadata.  On failure
    no transaction is pending and every borrowed connection has been
    returned.  Either way the bookmarks are untouched. *)
Theorem BeginTransaction_owns_connection_iff_success
        (ctx : Context) (configurers : list (TransactionConfig -> TransactionConfig))
        (w : World X) :
  explicitTx (sess w) = None ->
  let w0 := (finishPendingAutocommit ctx w).2 in
  let config := applyConfigurers configurers in
  let txc := mkTxConfig (defaultMode (sess w0)) (bookmarks (sess w0)) (Timeout config)
                        (Metadata config) (impersonatedUser (sess w0)) in
  let r := BeginTransaction ctx configurers w in
  exists es,
    calls r.2 = calls w0 ++ es
    /\ bookmarks (sess r.2) = bookmarks (sess w0)
    /\ autocommitTx (sess r.2) = None
    /\ match r.1 with
       | inr tx =>
           explicitTx (sess r.2) = Some tx
           /\ balance es = 1
           /\ et_fetchSize tx = fetchSize (sess w0)
           /\ last es = Some (CallTxBegin ctx (et_conn tx) txc (inr (et_txHandle tx)))
           /\ exists servers,
               borrowDetails es = [(servers, DefaultLivenessCheckThreshold, inr (et_conn tx))]
       | inl e => explicitTx (sess r.2) = None /\ balance es = 0
       end.
Proof.
  intros Hexp w0 config txc r.
  destruct (BeginTransaction_effect ctx configurers w Hexp)
    as (es & Hcalls & Hbm & Hauto & _ & _ & Hout).
  exists es. repeat (split; [assumption|]). fold r in Hout.
  destruct r.1 as [e|tx]; [exact Hout|].
  destruct Hout as (H1 & H2 & _ & H3 & _ & H4 & H5). repeat split; assumption.
Qed.

(** X8: [Run] owns a connection exactly when it succeeds.  With no explicit
    transaction pending, and seen from after the pre-flight of a pending
    auto-commit transaction: on success the session's pending auto-commit
    transaction holds the result returned, on the one connection borrowed
    and not returned; its last call runs the query with the session's fetch
    size, default mode, bookmarks and impersonated user and the configured
    timeout and metadata.  On failure no auto-commit transaction is pending
    and every borrowed connection has been returned. *)
Theorem Run_owns_connection_iff_success
        (ctx : Context) (cypher : string) (params : list (string * Value))
        (configurers : list (TransactionConfig -> TransactionConfig)) (w : World X) :
  explicitTx (sess w) = None ->
  let w0 := (finishPendingAutocommit ctx w).2 in
  let config := applyConfigurers configurers in
  let txc := mkTxConfig (defaultMode (sess w0)) (bookmarks (sess w0)) (Timeout config)
                        (Metadata config) (impersonatedUser (sess w0)) in
  let cmd := mkCommand cypher params (fetchSize (sess w0)) in
  let r := Run ctx cypher params configurers w in
  exists es,
    calls r.2 = calls w0 ++ es
    /\ bookmarks (sess r.2) = bookmarks (sess w0)
    /\ explicitTx (sess r.2) = None
    /\ match r.1 with
       | inr res =>
           autocommitTx (sess r.2) = Some (mkAutocommitTransaction (res_conn res) res ctx)
           /\ balance es = 1
           /\ res_cypher res = cypher /\ res_params res = params
           /\ last es = Some (CallRun ctx (res_conn res) cmd txc (inr (res_stream res)))
           /\ exists servers,
               borrowDetails es = [(servers, DefaultLivenessCheckThreshold, inr (res_conn res))]
       | inl e => autocommitTx (sess r.2) = None /\ balance es = 0
       end.
Proof.
  intros Hexp w0 config txc cmd r.
  destruct (Run_effect ctx cypher params configurers w Hexp)
    as (es & Hcalls & Hbm & Hexp' & _ & _ & Hout).
  exists es. repeat (split; [assumption|]). fold r in Hout.
  destruct r.1 as [e|res]; [exact Hout|].
  destruct Hout as (H1 & H2 & _ & H3 & H4 & H5 & H6). repeat split; assumption.
Qed.

(** ** One attempt, call by call *)

Lemma OnFailure_log ctx mode st conn err isCommitting (w : World X) :
  exists es,
    calls (OnFailure ctx mode st conn err isCommitting w).2 = calls w ++ es
    /\ balance es = 0 /\ lookupModes es = [] /\ txBeginConfigs es = []
    /\ workResults es = [] /\ commitResults es = [].
Proof.
  unfold OnFailure, OnDeadConnection. run.
  all: eexists; split; [rewrite <- ?app_assoc; try reflexivity; symmetry; apply app_nil_r|].
  all: repeat split; reflexivity.
Qed.

Lemma attempt_log ctx mode config st work (w : World X) :
  let r := executeTransactionFunction ctx mode config st work w in
  exists es,
    calls r.2 = calls w ++ es
    /\ balance es = 0
    /\ Forall (fun m => m = mode) (lookupModes es)
    /\ Forall (fun c => c = sessionTxConfig (sess w) mode config) (txBeginConfigs es)
    /\ match workResults es, commitResults es with
       | [], [] => r.1.1.1 = true
       | [inl _], [] => r.1.1.1 = true
       | [inr _], [Some _] => r.1.1.1 = true
       | [inr v], [None] => r.1 = (false, Some v, st)
       | _, _ => False
       end.
Proof.
  intros r. subst r. unfold executeTransactionFunction. rewrite bind_run.
  destruct (getConnection_log ctx mode DefaultLivenessCheckThreshold w)
    as (esG & HcG & HbalG & _ & HmodeG & _ & _ & (HtxG & HcomG & HworkG) & _).
  destruct (getConnection_effect ctx mode DefaultLivenessCheckThreshold w) as (Hres & _).
  pose proof (resolvedFrom_fields _ _ Hres) as (_ & Himp & _).
  apply resolvedFrom_frame in Hres. destruct Hres as (Hbm & _).
  apply lookupModes_one in HmodeG.
  set (w1 := (getConnection ctx mode DefaultLivenessCheckThreshold w).2) in *.
  assert (Htxc : sessionTxConfig (sess w1) mode config = sessionTxConfig (sess w) mode config).
  { unfold sessionTxConfig. now rewrite Hbm, Himp. }
  destruct (getConnection ctx mode DefaultLivenessCheckThreshold w).1 as [err|conn].
  - rewrite bind_run. simpl.
    destruct (OnFailure_log ctx mode st None err false w1)
      as (esF & HcF & HbalF & HmodeF & HtxF & HworkF & HcomF).
    exists (esG ++ esF). rewrite HcF, HcG, <- app_assoc. split; [reflexivity|].
    rewrite balance_app, lookupModes_app, txBeginConfigs_app, workResults_app,
      commitResults_app, HbalG, HbalF, HmodeF, HtxG, HtxF, HworkG, HworkF, HcomG, HcomF.
    rewrite app_nil_r. simpl. repeat split; auto.
  - run.
    all: repeat match goal with
           | |- context [OnFailure ?a ?b ?c ?d ?e ?f ?v] =>
               let esF := fresh "esF" in
               let HcF := fresh "HcF" in
               destruct (OnFailure_log a b c d e f v)
                 as (esF & HcF & ? & ? & ? & ? & ?);
               simpl in HcF; rewrite HcF; clear HcF;
               generalize dependent (OnFailure a b c d e f v); intros
           end.
    all: rewrite Htxc, HcG.
    all: eexists; split; [rewrite <- !app_assoc; reflexivity|].
    all: rewrite ?balance_app, ?lookupModes_app, ?txBeginConfigs_app, ?workResults_app,
           ?commitResults_app.
    all: repeat match goal with
           | H : balance ?e = _ |- context [balance ?e] => rewrite H
           | H : lookupModes ?e = _ |- context [lookupModes ?e] => rewrite H
           | H : txBeginConfigs ?e = _ |- context [txBeginConfigs ?e] => rewrite H
           | H : workResults ?e = _ |- context [workResults ?e] => rewrite H
           | H : commitResults ?e = _ |- context [commitResults ?e] => rewrite H
           end.
    all: simpl; rewrite ?app_nil_r; simpl.
    all: repeat split; auto; try lia.
Qed.

(** After an attempt that is to be tried again the session is as it was,
    but for the resolution of the home database. *)
Lemma attempt_keeps_session ctx mode config st work (w : World X) :
  let r := executeTransactionFunction ctx mode config st work w in
  r.1.1.1 = true -> resolvedFrom (sess w) (sess r.2).
Proof.
  intros r. subst r. unfold executeTransactionFunction. rewrite bind_run.
  destruct (getConnection_effect ctx mode DefaultLivenessCheckThreshold w) as (Hres & _).
  set (w1 := (getConnection ctx mode DefaultLivenessCheckThreshold w).2) in *.
  destruct (getConnection ctx mode DefaultLivenessCheckThreshold w).1 as [err|conn].
  - rewrite bind_run. simpl.
    destruct (OnFailure_effect ctx mode st None err false w1) as (Hs & _).
    now rewrite Hs.
  - run.
    all: repeat match goal with
           | |- context [OnFailure ?a ?b ?c ?d ?e ?f ?v] =>
               let Hs := fresh "Hs" in
               destruct (OnFailure_effect a b c d e f v) as (Hs & _);
               simpl in Hs; rewrite ?Hs; clear Hs;
               generalize dependent (OnFailure a b c d e f v); intros
           end.
    all: simpl; intros; first [discriminate | exact Hres].
Qed.

Lemma resolvedFrom_trans (s1 s2 s3 : sessionWithContext) :
  resolvedFrom s1 s2 -> resolvedFrom s2 s3 -> resolvedFrom s1 s3.
Proof.
  intros [->|(db & Hr & ->)] H23; [exact H23|].
  destruct H23 as [->|(db' & Hr' & _)]; [|discriminate Hr'].
  right. exists db. split; [assumption|reflexivity].
Qed.

Lemma Continue_log (st : retry.State) (w : World X) :
  exists es,
    calls (Continue st w).2 = calls w ++ es
    /\ balance es = 0 /\ lookupModes es = [] /\ txBeginConfigs es = []
    /\ workResults es = [] /\ commitResults es = [].
Proof.
  rewrite Continue_run. destruct (retry.LastErr st); [|exists []; now rewrite app_nil_r].
  simpl. destruct (negb _); [exists []; now rewrite app_nil_r|].
  destruct (retry.deadlineExceeded _ _); [exists []; now rewrite app_nil_r|].
  eexists. split; [reflexivity|]. repeat split; reflexivity.
Qed.

Lemma retriesExhausted_log (st : retry.State) (w : World X) :
  exists es,
    calls (retriesExhausted st w).2 = calls w ++ es
    /\ balance es = 0 /\ lookupModes es = [] /\ txBeginConfigs es = []
    /\ workResults es = [] /\ commitResults es = [].
Proof.
  unfold retriesExhausted. run.
  all: eexists; split; [try reflexivity; symmetry; apply app_nil_r|].
  all: repeat split; reflexivity.
Qed.

Lemma successes_app (l1 l2 : list (Error + Value)) :
  successes (l1 ++ l2) = (successes l1 + successes l2)%nat.
Proof. induction l1 as [|[e|v] l1 IH]; simpl; [reflexivity|exact IH|now rewrite IH]. Qed.

Lemma retryLoop_log fuel ctx mode config work st (w : World X) :
  let r := retryLoop fuel ctx mode config work st w in
  explicitTx (sess r.2) = explicitTx (sess w)
  /\ autocommitTx (sess r.2) = autocommitTx (sess w)
  /\ exists es,
      calls r.2 = calls w ++ es
      /\ balance es = 0
      /\ Forall (fun m => m = mode) (lookupModes es)
      /\ Forall (fun c => c = sessionTxConfig (sess w) mode config) (txBeginConfigs es)
      /\ length (commitResults es) = successes (workResults es)
      /\ match r.1 with
         | Some (Some v, e) =>
             e = None
             /\ last (workResults es) = Some (inr v)
             /\ commitsEndWell true (commitResults es)
         | _ => commitsEndWell false (commitResults es)
         end.
Proof.
  revert st w. induction fuel as [|fuel IH]; intros st w; simpl.
  { split; [reflexivity|]. split; [reflexivity|]. exists []. rewrite app_nil_r.
    repeat split; auto; constructor. }
  rewrite bind_run.
  pose proof (Continue_sess st w) as Hs1.
  destruct (Continue_log st w) as (es1 & Hc1 & Hb1 & Hm1 & Ht1 & Hw1 & Hk1).
  destruct (Continue st w) as [[goOn st1] w1]. simpl in *.
  destruct goOn.
  - rewrite bind_run.
    destruct (attempt_log ctx mode config st1 work w1)
      as (es2 & Hc2 & Hb2 & Hm2 & Ht2 & Hshape).
    destruct (executeTransactionFunction_outcome ctx mode config st1 work w1)
      as (Hauto & Hexp & _ & _).
    pose proof (attempt_keeps_session ctx mode config st1 work w1) as Hkeep.
    destruct (executeTransactionFunction ctx mode config st1 work w1)
      as [[[tryAgain result] st2] w2]. simpl in *.
    rewrite Hs1 in *.
    destruct tryAgain.
    + specialize (Hkeep eq_refl).
      pose proof (resolvedFrom_fields _ _ Hkeep) as (_ & Himp & _).
      apply resolvedFrom_frame in Hkeep. destruct Hkeep as (Hbm & _).
      destruct (IH st2 w2) as (IHe & IHa & es3 & Hc3 & Hb3 & Hm3 & Ht3 & Hlen3 & Hend3).
      split; [congruence|]. split; [congruence|].
      exists (es1 ++ es2 ++ es3).
      split; [rewrite Hc3, Hc2, Hc1, <- !app_assoc; reflexivity|].
      rewrite !balance_app, !lookupModes_app, !txBeginConfigs_app, !workResults_app,
        !commitResults_app, ?successes_app, ?length_app, Hb1, Hb2, Hb3, Hm1, Ht1, Hw1, Hk1. simpl.
      split; [reflexivity|]. split; [apply Forall_app; split; assumption|].
      split.
      { apply Forall_app; split; [assumption|].
        replace (sessionTxConfig (sess w) mode config)
          with (sessionTxConfig (sess w2) mode config); [assumption|].
        unfold sessionTxConfig. now rewrite Hbm, Himp. }
      destruct (workResults es2) as [|[e2|v2] [|]];
        destruct (commitResults es2) as [|[e2'|] [|]];
        try contradiction; try discriminate Hshape; simpl.
      * split; [exact Hlen3|]. exact Hend3.
      * split; [lia|]. destruct (retryLoop fuel ctx mode config work st2 w2).1
          as [[[v|] e]|]; try exact Hend3.
        destruct Hend3 as (He & Hlast & Hend). split; [exact He|]. split; [|exact Hend].
        rewrite last_cons, Hlast. reflexivity.
      * split; [lia|]. destruct (retryLoop fuel ctx mode config work st2 w2).1
          as [[[v|] e]|].
        -- destruct Hend3 as (He & Hlast & failures & Hf & Hall).
           split; [exact He|]. split; [rewrite last_cons, Hlast; reflexivity|].
           exists (Some e2' :: failures). rewrite Hf. split; [reflexivity|].
           constructor; [discriminate|assumption].
        -- constructor; [discriminate|assumption].
        -- constructor; [discriminate|assumption].
    + unfold ret; simpl. split; [congruence|]. split; [congruence|].
      exists (es1 ++ es2). split; [rewrite Hc2, Hc1, <- !app_assoc; reflexivity|].
      rewrite !balance_app, !lookupModes_app, !txBeginConfigs_app, !workResults_app,
        !commitResults_app, ?successes_app, ?length_app, Hb1, Hb2, Hm1, Ht1, Hw1, Hk1. simpl.
      split; [reflexivity|]. split; [assumption|]. split; [assumption|].
      destruct (workResults es2) as [|[e2|v2] [|]];
        destruct (commitResults es2) as [|[e2'|] [|]];
        try contradiction; try discriminate Hshape; simpl.
      injection Hshape as -> _. split; [lia|]. split; [reflexivity|].
      split; [reflexivity|]. exists []. split; [reflexivity|constructor].
  - rewrite bind_run. unfold ret; simpl.
    pose proof (retriesExhausted_sess st1 w1) as HsX.
    pose proof (retriesExhausted_no_result st1 w1) as HnoX.
    destruct (retriesExhausted_log st1 w1) as (esX & HcX & HbX & HmX & HtX & HwX & HkX).
    destruct (retriesExhausted st1 w1) as [[resX errX] wX]. simpl in *. subst resX.
    rewrite HsX, Hs1. split; [reflexivity|]. split; [reflexivity|].
    exists (es1 ++ esX). split; [rewrite HcX, Hc1, <- !app_assoc; reflexivity|].
    rewrite !balance_app, !lookupModes_app, !txBeginConfigs_app, !workResults_app,
      !commitResults_app, ?successes_app, ?length_app, Hb1, HbX, Hm1, HmX, Ht1, HtX, Hw1, HwX, Hk1, HkX. simpl.
    repeat split; auto; constructor.
Qed.

(** ** Managed transactions, from the caller's side *)

(** X9: One attempt of a managed transaction returns every connection it
    borrowed, on every path.  It looks servers up and begins its
    transaction in the requested mode only, invokes the work at most
    once, and commits only after the work returned a value.  It asks not
    to be tried again exactly when the commit succeeded, and then it
    yields the value of the work and leaves the retry state alone. *)
Theorem attempt_returns_connection_and_commits_after_work
        ctx mode config st work (w : World X) :
  let r := executeTransactionFunction ctx mode config st work w in
  exists es,
    calls r.2 = calls w ++ es
    /\ balance es = 0
    /\ Forall (fun m => m = mode) (lookupModes es)
    /\ Forall (fun c => tc_Mode c = mode) (txBeginConfigs es)
    /\ match workResults es, commitResults es with
       | [], [] => r.1.1.1 = true
       | [inl _], [] => r.1.1.1 = true
       | [inr _], [Some _] => r.1.1.1 = true
       | [inr v], [None] => r.1 = (false, Some v, st)
       | _, _ => False
       end.
Proof.
  intros r.
  destruct (attempt_log ctx mode config st work w)
    as (es & Hcalls & Hbal & Hmode & Hcfg & Hshape).
  exists es. fold r in Hcalls, Hshape.
  split; [exact Hcalls|]. split; [exact Hbal|]. split; [exact Hmode|].
  split; [eapply Forall_impl; [exact Hcfg|]; now intros c ->|].
  exact Hshape.
Qed.

Lemma finishPendingAutocommit_log (ctx : Context) (w : World X) :
  let w0 := (finishPendingAutocommit ctx w).2 in
  explicitTx (sess w0) = explicitTx (sess w)
  /\ autocommitTx (sess w0) = None
  /\ exists pre,
      calls w0 = calls w ++ pre
      /\ balance pre = match autocommitTx (sess w) with Some _ => -1 | None => 0 end
      /\ lookupModes pre = [] /\ txBeginConfigs pre = []
      /\ workResults pre = [] /\ commitResults pre = [].
Proof.
  destruct (autocommitTx (sess w)) as [tx|] eqn:Htx.
  - rewrite (finishPendingAutocommit_some ctx tx w Htx), autocommit_done_run. simpl.
    split; [reflexivity|]. split; [reflexivity|].
    eexists. split; [reflexivity|]. repeat split; reflexivity.
  - rewrite (finishPendingAutocommit_none ctx w Htx). simpl.
    split; [reflexivity|]. split; [assumption|].
    exists []. rewrite app_nil_r. repeat split; reflexivity.
Qed.

Lemma runRetriable_log fuel ctx mode work configurers (w : World X) :
  let w0 := (finishPendingAutocommit ctx w).2 in
  let config := applyConfigurers configurers in
  let r := runRetriable fuel ctx mode work configurers w in
  explicitTx (sess r.2) = explicitTx (sess w)
  /\ (explicitTx (sess w) = None -> autocommitTx (sess r.2) = None)
  /\ (explicitTx (sess w) <> None -> autocommitTx (sess r.2) = autocommitTx (sess w))
  /\ exists es,
      calls r.2 = calls w ++ es
      /\ balance es = pending (sess r.2) - pending (sess w)
      /\ Forall (fun m => m = mode) (lookupModes es)
      /\ Forall (fun c => c = sessionTxConfig (sess w0) mode config) (txBeginConfigs es)
      /\ length (commitResults es) = successes (workResults es)
      /\ match r.1 with
         | Some (Some v, e) =>
             e = None
             /\ last (workResults es) = Some (inr v)
             /\ commitsEndWell true (commitResults es)
         | _ => commitsEndWell false (commitResults es)
         end.
Proof.
  intros w0 config r. subst r. unfold runRetriable.
  rewrite bind_run. unfold get_sess. cbn [fst snd].
  destruct (explicitTx (sess w)) as [tx|] eqn:Hexp.
  - unfold ret; simpl. split; [assumption|]. split; [discriminate|]. split; [reflexivity|].
    exists []. rewrite app_nil_r. simpl. repeat split; try constructor. lia.
  - rewrite bind_run. fold w0. fold config.
    destruct (finishPendingAutocommit_log ctx w)
      as (Hexp0 & Hauto0 & pre & Hc0 & Hb0 & Hm0 & Ht0 & Hw0 & Hk0).
    fold w0 in Hexp0, Hauto0, Hc0. rewrite Hexp in Hexp0.
    destruct (validateTransactionConfig config) as [err|].
    + unfold ret; simpl. split; [assumption|]. split; [intros _; assumption|].
      split; [intros Hc; now destruct Hc|].
      exists pre. rewrite Hm0, Ht0, Hw0, Hk0. simpl.
      split; [assumption|]. split.
      { rewrite Hb0. unfold pending. rewrite Hexp0, Hauto0, Hexp.
        destruct (autocommitTx (sess w)); lia. }
      repeat split; constructor.
    + rewrite bind_run. cbn [fst snd].
      destruct (retryLoop_log fuel ctx mode config work (initialRetryState (sess w0)) w0)
        as (HexpL & HautoL & es & HcL & HbL & HmL & HtL & HlenL & HendL).
      split; [congruence|]. split; [intros _; congruence|].
      split; [intros Hc; now destruct Hc|].
      exists (pre ++ es). split; [rewrite HcL, Hc0, <- app_assoc; reflexivity|].
      rewrite balance_app, lookupModes_app, txBeginConfigs_app, workResults_app,
        commitResults_app, Hb0, HbL, Hm0, Ht0, Hw0, Hk0. simpl.
      split.
      { unfold pending. rewrite HexpL, HautoL, Hexp0, Hauto0, Hexp.
        destruct (autocommitTx (sess w)); lia. }
      repeat (split; [assumption|]). exact HendL.
Qed.

(** X10: [ExecuteRead] works on readers and [ExecuteWrite] on writers, whatever
    the default access mode of the session: every server lookup asks for
    that role, and every attempt begins its transaction in that mode, with
    the configured timeout and metadata, the session's impersonated user
    and the bookmarks the session had once the pending auto-commit
    transaction was finished (the same for every attempt). *)
Theorem ExecuteRead_ExecuteWrite_mode_and_bookmarks
        (fuel : nat) (ctx : Context) (work : ManagedTransactionWork X)
        (configurers : list (TransactionConfig -> TransactionConfig)) (w : World X) :
  let w0 := (finishPendingAutocommit ctx w).2 in
  let config := applyConfigurers configurers in
  let txc mode := mkTxConfig mode (bookmarks (sess w0)) (Timeout config) (Metadata config)
                             (impersonatedUser (sess w0)) in
  (exists es,
      calls (ExecuteRead fuel ctx work configurers w).2 = calls w ++ es
      /\ Forall (fun m => m = ReadMode) (lookupModes es)
      /\ Forall (fun c => c = txc ReadMode) (txBeginConfigs es))
  /\ (exists es,
      calls (ExecuteWrite fuel ctx work configurers w).2 = calls w ++ es
      /\ Forall (fun m => m = WriteMode) (lookupModes es)
      /\ Forall (fun c => c = txc WriteMode) (txBeginConfigs es)).
Proof.
  intros w0 config txc. unfold ExecuteRead, ExecuteWrite. split.
  - destruct (runRetriable_log fuel ctx ReadMode work configurers w)
      as (_ & _ & _ & es & Hc & _ & Hm & Ht & _).
    exists es. repeat split; assumption.
  - destruct (runRetriable_log fuel ctx WriteMode work configurers w)
      as (_ & _ & _ & es & Hc & _ & Hm & Ht & _).
    exists es. repeat split; assumption.
Qed.

(** X11: A managed transaction commits once per successful invocation of the
    work.  When it returns a value there is no error, the value is the
    one the last invocation of the work returned, and the last commit is
    the only one that succeeded; when it returns no value (an error, or
    the loop still running at the bound) no commit succeeded. *)
Theorem managed_transaction_commits_what_it_returns
        (fuel : nat) (ctx : Context) (mode : AccessMode) (work : ManagedTransactionWork X)
        (configurers : list (TransactionConfig -> TransactionConfig)) (w : World X) :
  let r := runRetriable fuel ctx mode work configurers w in
  exists es,
    calls r.2 = calls w ++ es
    /\ length (commitResults es) = successes (workResults es)
    /\ match r.1 with
       | Some (Some v, e) =>
           e = None
           /\ last (workResults es) = Some (inr v)
           /\ exists failures,
               commitResults es = failures ++ [None]
               /\ Forall (fun c => c <> None) failures
       | _ => Forall (fun c => c <> None) (commitResults es)
       end.
Proof.
  intros r.
  destruct (runRetriable_log fuel ctx mode work configurers w)
    as (_ & _ & _ & es & Hc & _ & _ & _ & Hlen & Hend).
  exists es. split; [exact Hc|]. split; [exact Hlen|]. exact Hend.
Qed.

(** ** Connections held and transactions pending *)

Lemma pending_bounds (s : sessionWithContext) : 0 <= pending s <= 2.
Proof. unfold pending. destruct (explicitTx s), (autocommitTx s); lia. Qed.

Lemma BeginTransaction_neutral ctx configurers (w : World X) :
  let w' := (BeginTransaction ctx configurers w).2 in
  balance (calls w') - pending (sess w') = balance (calls w) - pending (sess w)
  /\ (pending (sess w) <= 1 -> pending (sess w') <= 1).
Proof.
  destruct (explicitTx (sess w)) as [tx|] eqn:Hexp.
  - unfold BeginTransaction. rewrite bind_run. unfold get_sess. cbn [fst snd].
    rewrite Hexp. run. rewrite balance_app. simpl. split; [lia|auto].
  - destruct (BeginTransaction_effect ctx configurers w Hexp)
      as (es & Hc & _ & Hauto & _ & _ & Hout).
    destruct (finishPendingAutocommit_log ctx w) as (_ & _ & pre & Hc0 & Hb0 & _).
    cbv zeta. rewrite Hc, Hc0, !balance_app, Hb0. unfold pending.
    rewrite Hauto, Hexp.
    destruct (BeginTransaction ctx configurers w).1 as [e|tx];
      [destruct Hout as (-> & ->)|destruct Hout as (-> & -> & _)];
      destruct (autocommitTx (sess w)); split; lia.
Qed.

Lemma Run_neutral ctx cypher params configurers (w : World X) :
  let w' := (Run ctx cypher params configurers w).2 in
  balance (calls w') - pending (sess w') = balance (calls w) - pending (sess w)
  /\ (pending (sess w) <= 1 -> pending (sess w') <= 1).
Proof.
  destruct (explicitTx (sess w)) as [tx|] eqn:Hexp.
  - unfold Run. rewrite bind_run. unfold get_sess. cbn [fst snd].
    rewrite Hexp. run. rewrite balance_app. simpl. split; [lia|auto].
  - destruct (Run_effect ctx cypher params configurers w Hexp)
      as (es & Hc & _ & Hexp' & _ & _ & Hout).
    destruct (finishPendingAutocommit_log ctx w) as (_ & _ & pre & Hc0 & Hb0 & _).
    cbv zeta. rewrite Hc, Hc0, !balance_app, Hb0. unfold pending.
    rewrite Hexp', Hexp.
    destruct (Run ctx cypher params configurers w).1 as [e|res];
      [destruct Hout as (-> & ->)|destruct Hout as (-> & -> & _)];
      destruct (autocommitTx (sess w)); split; lia.
Qed.

Lemma runRetriable_neutral fuel ctx mode work configurers (w : World X) :
  let w' := (runRetriable fuel ctx mode work configurers w).2 in
  balance (calls w') - pending (sess w') = balance (calls w) - pending (sess w)
  /\ (pending (sess w) <= 1 -> pending (sess w') <= 1).
Proof.
  destruct (runRetriable_log fuel ctx mode work configurers w)
    as (Hexp & Hnone & Hsome & es & Hc & Hb & _).
  cbv zeta. rewrite Hc, balance_app, Hb. split; [lia|].
  unfold pending. rewrite Hexp. destruct (explicitTx (sess w)) as [tx|].
  - rewrite Hsome; [auto|discriminate].
  - rewrite (Hnone eq_refl). lia.
Qed.

Lemma LastBookmarks_neutral (w : World X) :
  let w' := (LastBookmarks w).2 in
  balance (calls w') - pending (sess w') = balance (calls w) - pending (sess w)
  /\ (pending (sess w) <= 1 -> pending (sess w') <= 1).
Proof.
  destruct (autocommitTx (sess w)) as [tx|] eqn:Htx.
  - rewrite (LastBookmarks_pending tx w Htx). simpl. rewrite balance_app. simpl.
    unfold pending. simpl. split; [lia|auto].
  - rewrite (LastBookmarks_idle w Htx). simpl. split; [lia|auto].
Qed.

Lemma lastBookmark_neutral (w : World X) :
  let w' := (lastBookmark w).2 in
  balance (calls w') - pending (sess w') = balance (calls w) - pending (sess w)
  /\ (pending (sess w) <= 1 -> pending (sess w') <= 1).
Proof.
  assert (Hsame : (lastBookmark w).2 = (LastBookmarks w).2).
  { unfold lastBookmark, LastBookmarks. rewrite !bind_run. reflexivity. }
  cbv zeta. rewrite Hsame. apply LastBookmarks_neutral.
Qed.

Lemma getServerInfo_neutral ctx (w : World X) :
  let w' := (getServerInfo ctx w).2 in
  balance (calls w') - pending (sess w') = balance (calls w) - pending (sess w)
  /\ (pending (sess w) <= 1 -> pending (sess w') <= 1).
Proof.
  destruct (getServerInfo_log ctx w) as (Hsess & es & Hc & Hb & _).
  apply resolvedFrom_frame in Hsess. destruct Hsess as (_ & Hauto & Hexp & _).
  cbv zeta. rewrite Hc, balance_app, Hb. unfold pending. rewrite Hauto, Hexp.
  split; [lia|auto].
Qed.

Lemma closeTransaction_neutral f (w : World X) :
  let w' := (closeTransaction f w).2 in
  balance (calls w') - pending (sess w') = balance (calls w) - pending (sess w)
  /\ (pending (sess w) <= 1 -> pending (sess w') <= 1).
Proof.
  unfold closeTransaction. rewrite bind_run. unfold get_sess. cbn [fst snd].
  destruct (explicitTx (sess w)) as [tx|] eqn:Hexp.
  - rewrite bind_run, explicit_onClosed_run. unfold outside. simpl.
    rewrite balance_app. simpl. unfold pending. simpl. rewrite Hexp.
    destruct (autocommitTx (sess w)); split; lia.
  - unfold ret. simpl. split; [lia|auto].
Qed.

Lemma runOp_neutral (op : Op X) (w : World X) :
  let w' := (runOp op w).2 in
  balance (calls w') - pending (sess w') = balance (calls w) - pending (sess w)
  /\ (pending (sess w) <= 1 -> pending (sess w') <= 1).
Proof.
  destruct op; unfold runOp; try rewrite bind_run; unfold ret; cbn [fst snd].
  - apply BeginTransaction_neutral.
  - apply Run_neutral.
  - apply runRetriable_neutral.
  - apply runRetriable_neutral.
  - apply LastBookmarks_neutral.
  - apply lastBookmark_neutral.
  - apply getServerInfo_neutral.
  - apply closeTransaction_neutral.
  - unfold outside. simpl. split; [lia|auto].
Qed.

Lemma runOps_neutral (ops : list (Op X)) (w : World X) :
  let w' := (runOps ops w).2 in
  balance (calls w') - pending (sess w') = balance (calls w) - pending (sess w)
  /\ (pending (sess w) <= 1 -> pending (sess w') <= 1).
Proof.
  revert w. induction ops as [|op rest IH]; intros w; simpl.
  - split; [lia|auto].
  - rewrite bind_run. destruct (runOp_neutral op w) as (Hb & Hp).
    destruct (IH (runOp op w).2) as (Hb' & Hp'). cbv zeta in *. split; [lia|auto].
Qed.

(** X13: Whatever is done with a session, in whatever order (transactions
    begun and closed, queries run, managed transactions, bookmarks and
    server information asked for), the connections it has borrowed and not
    returned are as many as its pending transactions; a session that
    starts new never has more than one pending transaction, so never
    holds more than one connection between two operations. *)
Theorem session_holds_one_connection_per_pending_transaction
        (ops : list (Op X)) :
  (forall w : World X,
      let w' := (runOps ops w).2 in
      exists es, calls w' = calls w ++ es
                 /\ balance es = pending (sess w') - pending (sess w))
  /\ (forall (cfg : Config) (sc : SessionConfig) (x : X),
      let w' := (runOps ops (mkWorld (newSessionWithContext cfg sc) x [])).2 in
      balance (calls w') = pending (sess w') /\ 0 <= pending (sess w') <= 1).
Proof.
  split.
  - intros w w'. destruct (runOps_neutral ops w) as (Hb & _). fold w' in Hb.
    assert (Hext : exists es, calls w' = calls w ++ es).
    { subst w'. apply (preserves_runOps (fun v => exists es, calls v = calls w ++ es)).
      - apply extends_call.
      - intros v x' Hv. exact Hv.
      - intros v s' _ _ Hv. exact Hv.
      - apply extends_resolve.
      - exists []. now rewrite app_nil_r. }
    destruct Hext as (es & Hes). exists es. split; [exact Hes|].
    rewrite Hes, balance_app in Hb. lia.
  - intros cfg sc x w'.
    destruct (runOps_neutral ops (mkWorld (newSessionWithContext cfg sc) x []))
      as (Hb & Hp). fold w' in Hb, Hp.
    unfold pending at 2 in Hb. unfold pending at 1 in Hp. simpl in Hb, Hp.
    pose proof (pending_bounds (sess w')). split; [lia|]. split; [lia|apply Hp; lia].
Qed.

(** ** From a pending auto-commit transaction to the next transaction *)

Lemma runRetriable_after_preflight fuel ctx mode work configurers (w : World X) :
  explicitTx (sess w) = None ->
  let w0 := (finishPendingAutocommit ctx w).2 in
  exists es,
    calls (runRetriable fuel ctx mode work configurers w).2 = calls w0 ++ es
    /\ Forall (fun c => c = sessionTxConfig (sess w0) mode (applyConfigurers configurers))
              (txBeginConfigs es).
Proof.
  intros Hexp w0. unfold runRetriable.
  rewrite bind_run. unfold get_sess. cbn [fst snd]. rewrite Hexp, bind_run. fold w0.
  destruct (validateTransactionConfig (applyConfigurers configurers)) as [err|].
  - exists []. unfold ret. simpl. rewrite app_nil_r. split; [reflexivity|constructor].
  - rewrite bind_run. cbn [fst snd].
    destruct (retryLoop_log fuel ctx mode (applyConfigurers configurers) work
                            (initialRetryState (sess w0)) w0)
      as (_ & _ & es & Hc & _ & _ & Ht & _).
    exists es. split; assumption.
Qed.

(** X12: The next transaction after an auto-commit transaction waits for it
    and builds on it.  With an auto-commit transaction pending (and no
    explicit one), [BeginTransaction], [Run] and the managed transactions
    first discard its stream, read the bookmark of its connection and
    return that connection; the transaction they then begin (every
    attempt, for a managed one) or the query they run carries exactly the
    bookmarks the session has after that reading: the connection's
    bookmark alone when it has one, the session's earlier bookmarks
    otherwise. *)
Theorem pending_autocommit_bookmark_is_carried
        (ctx : Context) (configurers : list (TransactionConfig -> TransactionConfig))
        (cypher : string) (params : list (string * Value))
        (fuel : nat) (mode : AccessMode) (work : ManagedTransactionWork X)
        (w : World X) (tx : autocommitTransaction) :
  explicitTx (sess w) = None ->
  autocommitTx (sess w) = Some tx ->
  let c := at_conn tx in
  let d := conn_Consume ctx c (res_stream (at_res tx)) (ext w) in
  let b := conn_Bookmark c d.2 in
  let carried := if String.eqb b "" then bookmarks (sess w) else [b] in
  let pre := [CallConsume ctx c (res_stream (at_res tx)) d.1; CallBookmark c b;
              CallReturn (at_ctx tx) c (pool_Return (at_ctx tx) c d.2).1] in
  (forall etx, (BeginTransaction ctx configurers w).1 = inr etx ->
      exists es cfg,
        calls (BeginTransaction ctx configurers w).2 = calls w ++ pre ++ es
        /\ last es = Some (CallTxBegin ctx (et_conn etx) cfg (inr (et_txHandle etx)))
        /\ tc_Bookmarks cfg = carried)
  /\ (forall res, (Run ctx cypher params configurers w).1 = inr res ->
      exists es cmd cfg,
        calls (Run ctx cypher params configurers w).2 = calls w ++ pre ++ es
        /\ last es = Some (CallRun ctx (res_conn res) cmd cfg (inr (res_stream res)))
        /\ tc_Bookmarks cfg = carried)
  /\ (exists es,
        calls (runRetriable fuel ctx mode work configurers w).2 = calls w ++ pre ++ es
        /\ Forall (fun cfg => tc_Bookmarks cfg = carried) (txBeginConfigs es)).
Proof.
  intros Hexp Htx c d b carried pre.
  assert (Hw0 : calls (finishPendingAutocommit ctx w).2 = calls w ++ pre
                /\ bookmarks (sess (finishPendingAutocommit ctx w).2) = carried).
  { rewrite (finishPendingAutocommit_some ctx tx w Htx), autocommit_done_run. simpl.
    split; [reflexivity|]. unfold bookmarksAfter, nonEmpty. fold c d b. subst carried.
    now destruct (String.eqb b ""). }
  destruct Hw0 as (Hc0 & Hb0).
  split; [|split].
  - intros etx Hres.
    destruct (BeginTransaction_effect ctx configurers w Hexp)
      as (es & Hc & _ & _ & _ & _ & Hout).
    rewrite Hres in Hout. destruct Hout as (_ & _ & _ & _ & _ & Hlast & _).
    eexists es, _. split; [rewrite Hc, Hc0, <- app_assoc; reflexivity|].
    split; [exact Hlast|]. exact Hb0.
  - intros res Hres.
    destruct (Run_effect ctx cypher params configurers w Hexp)
      as (es & Hc & _ & _ & _ & _ & Hout).
    rewrite Hres in Hout. destruct Hout as (_ & _ & _ & _ & _ & Hlast & _).
    eexists es, _, _. split; [rewrite Hc, Hc0, <- app_assoc; reflexivity|].
    split; [exact Hlast|]. exact Hb0.
  - destruct (runRetriable_after_preflight fuel ctx mode work configurers w Hexp)
      as (es & Hc & Ht).
    exists es. split; [rewrite Hc, Hc0, <- app_assoc; reflexivity|].
    eapply Forall_impl; [exact Ht|]. intros cfg ->. exact Hb0.
Qed.

End MoreFacts.

(** * The testkit backend *)

(** ** Reading requests *)

Section ServingFacts.

Context {S : Type}.
Variable handleRequest : testkit.text -> testkit.backend S -> string + testkit.backend S.

Lemma ReadString_line (l rest : testkit.text) :
  forallb (fun c => negb (Ascii.eqb c testkit.newline)) l = true ->
  testkit.ReadString (l ++ testkit.newline :: rest) = (Some (l ++ [testkit.newline]), rest).
Proof.
  intros Hl. induction l as [|c l IH]; simpl.
  - reflexivity.
  - simpl in Hl. apply andb_true_iff in Hl. destruct Hl as (Hc & Hl).
    destruct (Ascii.eqb c testkit.newline); [discriminate Hc|].
    rewrite (IH Hl). reflexivity.
Qed.

Lemma ReadString_eof (s : testkit.text) :
  forallb (fun c => negb (Ascii.eqb c testkit.newline)) s = true ->
  testkit.ReadString s = (None, []).
Proof.
  intros Hs. induction s as [|c s IH]; simpl; [reflexivity|].
  simpl in Hs. apply andb_true_iff in Hs. destruct Hs as (Hc & Hs).
  destruct (Ascii.eqb c testkit.newline); [discriminate Hc|].
  rewrite (IH Hs). reflexivity.
Qed.

Lemma ReadString_shorter (s line rest : testkit.text) :
  testkit.ReadString s = (Some line, rest) -> (length rest < length s)%nat.
Proof.
  revert line. induction s as [|c s IH]; intros line; simpl; [discriminate|].
  destruct (Ascii.eqb c testkit.newline).
  - intros [= _ <-]. lia.
  - destruct (testkit.ReadString s) as [[l|] r]; simpl; [|discriminate].
    intros [= _ <-]. specialize (IH l eq_refl). lia.
Qed.

Lemma ReadString_begin (rest : testkit.text) :
  testkit.ReadString (testkit.requestBegin ++ rest) = (Some testkit.requestBegin, rest).
Proof. reflexivity. Qed.

Lemma ReadString_end (rest : testkit.text) :
  testkit.ReadString (testkit.requestEnd ++ rest) = (Some testkit.requestEnd, rest).
Proof. reflexivity. Qed.

Lemma plainLine_parts (l : testkit.text) :
  testkit.plainLine l = true ->
  forallb (fun c => negb (Ascii.eqb c testkit.newline)) l = true
  /\ l ++ [testkit.newline] <> testkit.requestBegin
  /\ l ++ [testkit.newline] <> testkit.requestEnd.
Proof.
  unfold testkit.plainLine. intros H.
  apply andb_true_iff in H. destruct H as (H & H3).
  apply andb_true_iff in H. destruct H as (H1 & H2).
  split; [exact H1|]. split.
  - apply negb_true_iff, bool_decide_eq_false in H2. exact H2.
  - apply negb_true_iff, bool_decide_eq_false in H3. exact H3.
Qed.

Lemma processLoop_line fuel request inRequest (r line rest : testkit.text)
      (b : testkit.backend S) :
  testkit.ReadString r = (Some line, rest) ->
  testkit.processLoop handleRequest (Datatypes.S fuel) request inRequest (testkit.set_rd r b)
  = if decide (line = testkit.requestBegin) then
      if inRequest then Some (testkit.Panicked "Already in request")
      else testkit.processLoop handleRequest fuel request true (testkit.set_rd rest b)
    else if decide (line = testkit.requestEnd) then
      if negb inRequest then Some (testkit.Panicked "End while not in request")
      else match handleRequest request (testkit.set_rd rest b) with
           | inl msg => Some (testkit.Panicked msg)
           | inr b' => Some (testkit.Returned true b')
           end
    else
      if negb inRequest then Some (testkit.Panicked "Line while not in request")
      else testkit.processLoop handleRequest fuel (request ++ line) inRequest
             (testkit.set_rd rest b).
Proof.
  intros Hread. destruct b as [r0 errs i objs].
  cbn [testkit.processLoop testkit.set_rd testkit.rd testkit.recordedErrors testkit.id
       testkit.objects].
  unfold testkit.set_rd.
  cbn [testkit.rd testkit.recordedErrors testkit.id testkit.objects].
  rewrite Hread. reflexivity.
Qed.

Lemma processLoop_eof fuel request inRequest (r rest : testkit.text) (b : testkit.backend S) :
  testkit.ReadString r = (None, rest) ->
  testkit.processLoop handleRequest (Datatypes.S fuel) request inRequest (testkit.set_rd r b)
  = Some (testkit.Returned false (testkit.set_rd rest b)).
Proof.
  intros Hread. destruct b as [r0 errs i objs].
  cbn [testkit.processLoop testkit.set_rd testkit.rd testkit.recordedErrors testkit.id
       testkit.objects].
  unfold testkit.set_rd.
  cbn [testkit.rd testkit.recordedErrors testkit.id testkit.objects].
  rewrite Hread. reflexivity.
Qed.

Lemma set_rd_rd (b : testkit.backend S) : testkit.set_rd (testkit.rd b) b = b.
Proof. now destruct b. Qed.

Lemma unlines_cons (l : testkit.text) (lines : list testkit.text) (t : testkit.text) :
  testkit.unlines (l :: lines) ++ t = l ++ testkit.newline :: (testkit.unlines lines ++ t).
Proof. unfold testkit.unlines. simpl. now rewrite <- !app_assoc. Qed.

Lemma unlines_length (lines : list testkit.text) :
  (length lines <= length (testkit.unlines lines))%nat.
Proof.
  unfold testkit.unlines. induction lines as [|l lines IH]; simpl; [lia|].
  rewrite !length_app. simpl. lia.
Qed.

Lemma processLoop_lines (lines : list testkit.text) :
  forall (fuel : nat) (request t : testkit.text) (b : testkit.backend S),
    Forall (fun l => testkit.plainLine l = true) lines ->
    testkit.processLoop handleRequest (length lines + fuel) request true
      (testkit.set_rd (testkit.unlines lines ++ t) b)
    = testkit.processLoop handleRequest fuel (request ++ testkit.unlines lines) true
        (testkit.set_rd t b).
Proof.
  induction lines as [|l lines IH]; intros fuel request t b Hplain.
  - change (testkit.unlines []) with (@nil ascii). now rewrite app_nil_r.
  - apply Forall_cons in Hplain. destruct Hplain as (Hl & Hplain).
    apply plainLine_parts in Hl. destruct Hl as (Hnl & Hnb & Hne).
    rewrite unlines_cons. cbn [length Nat.add].
    rewrite (processLoop_line _ _ _ _ _ _ _ (ReadString_line l _ Hnl)).
    case_decide; [contradiction|]. case_decide; [contradiction|].
    cbn [negb]. rewrite (IH fuel _ t b Hplain).
    rewrite <- (app_nil_r (testkit.unlines (l :: lines))), unlines_cons, app_nil_r.
    rewrite <- !app_assoc. reflexivity.
Qed.

Lemma processLoop_total :
  forall (fuel : nat) (request : testkit.text) (inRequest : bool) (b : testkit.backend S),
    (length (testkit.rd b) < fuel)%nat ->
    is_Some (testkit.processLoop handleRequest fuel request inRequest b).
Proof.
  induction fuel as [|fuel IH]; intros request inRequest b Hfuel; [lia|].
  rewrite <- (set_rd_rd b).
  destruct (testkit.ReadString (testkit.rd b)) as [[line|] rest] eqn:Hread.
  - rewrite (processLoop_line _ _ _ _ _ _ _ Hread).
    apply ReadString_shorter in Hread.
    assert (Hrest : (length (testkit.rd (testkit.set_rd rest b)) < fuel)%nat)
      by (simpl; lia).
    repeat case_decide; destruct inRequest; simpl; try (now eexists); try (now apply IH).
    now destruct (handleRequest request (testkit.set_rd rest b)).
  - rewrite (processLoop_eof _ _ _ _ _ _ Hread). now eexists.
Qed.

Lemma process_begun (lines : list testkit.text) (t : testkit.text) (b : testkit.backend S) :
  Forall (fun l => testkit.plainLine l = true) lines ->
  exists k,
    testkit.process handleRequest
      (testkit.set_rd (testkit.requestBegin ++ testkit.unlines lines ++ t) b)
    = testkit.processLoop handleRequest (Datatypes.S k) (testkit.unlines lines) true
        (testkit.set_rd t b).
Proof.
  intros Hplain. unfold testkit.process.
  rewrite (processLoop_line _ _ _ _ _ _ _ (ReadString_begin _)).
  case_decide as Hb; [|now destruct Hb].
  cbn [testkit.rd testkit.set_rd]. rewrite !length_app.
  pose proof (unlines_length lines) as Hlen.
  exists (length (testkit.unlines lines) - length lines + length t + 14)%nat.
  replace (length testkit.requestBegin + (length (testkit.unlines lines) + length t))%nat
    with (length lines
          + Datatypes.S (length (testkit.unlines lines) - length lines + length t + 14))%nat
    by (change (length testkit.requestBegin) with 15%nat; lia).
  rewrite (processLoop_lines lines _ [] t b Hplain). now rewrite app_nil_l.
Qed.

Lemma process_framed (lines : list testkit.text) (rest : testkit.text)
      (b : testkit.backend S) :
  Forall (fun l => testkit.plainLine l = true) lines ->
  testkit.process handleRequest (testkit.set_rd (testkit.framed lines ++ rest) b)
  = Some (match handleRequest (testkit.unlines lines) (testkit.set_rd rest b) with
          | inl msg => testkit.Panicked msg
          | inr b' => testkit.Returned true b'
          end).
Proof.
  intros Hplain. unfold testkit.framed. rewrite <- !app_assoc.
  destruct (process_begun lines (testkit.requestEnd ++ rest) b Hplain) as (k & ->).
  rewrite (processLoop_line _ _ _ _ _ _ _ (ReadString_end rest)).
  case_decide as Hb; [discriminate Hb|]. case_decide as He; [|now destruct He].
  simpl. now destruct (handleRequest (testkit.unlines lines) (testkit.set_rd rest b)).
Qed.

Lemma process_end_of_input (t : testkit.text) (b : testkit.backend S) :
  forallb (fun c => negb (Ascii.eqb c testkit.newline)) t = true ->
  testkit.process handleRequest (testkit.set_rd t b)
  = Some (testkit.Returned false (testkit.set_rd [] b)).
Proof.
  intros Ht. unfold testkit.process.
  apply (processLoop_eof _ _ _ _ _ _ (ReadString_eof t Ht)).
Qed.

(** X15: [process] always ends.  At the end of the input it returns false,
    and a request that was begun but not ended is dropped without being
    handled.  Input that is not framed makes it panic: a line before any
    begin marker, an end marker without a begin marker, a second begin
    marker inside a request. *)
Theorem process_unframed_input (b : testkit.backend S) :
  is_Some (testkit.process handleRequest b)
  /\ (forall (lines : list testkit.text) (t : testkit.text),
      Forall (fun l => testkit.plainLine l = true) lines ->
      forallb (fun c => negb (Ascii.eqb c testkit.newline)) t = true ->
      testkit.process handleRequest (testkit.set_rd t b)
      = Some (testkit.Returned false (testkit.set_rd [] b))
      /\ testkit.process handleRequest
           (testkit.set_rd (testkit.requestBegin ++ testkit.unlines lines ++ t) b)
         = Some (testkit.Returned false (testkit.set_rd [] b)))
  /\ (forall (l rest : testkit.text),
      testkit.plainLine l = true ->
      testkit.process handleRequest (testkit.set_rd (l ++ testkit.newline :: rest) b)
      = Some (testkit.Panicked "Line while not in request"))
  /\ (forall rest : testkit.text,
      testkit.process handleRequest (testkit.set_rd (testkit.requestEnd ++ rest) b)
      = Some (testkit.Panicked "End while not in request"))
  /\ (forall (lines : list testkit.text) (rest : testkit.text),
      Forall (fun l => testkit.plainLine l = true) lines ->
      testkit.process handleRequest
        (testkit.set_rd (testkit.requestBegin ++ testkit.unlines lines
                         ++ testkit.requestBegin ++ rest) b)
      = Some (testkit.Panicked "Already in request")).
Proof.
  split; [apply processLoop_total; lia|].
  split; [|split; [|split]].
  - intros lines t Hplain Ht. split; [now apply process_end_of_input|].
    destruct (process_begun lines t b Hplain) as (k & ->).
    apply (processLoop_eof _ _ _ _ _ _ (ReadString_eof t Ht)).
  - intros l rest Hl. apply plainLine_parts in Hl. destruct Hl as (Hnl & Hnb & Hne).
    unfold testkit.process.
    rewrite (processLoop_line _ _ _ _ _ _ _ (ReadString_line l rest Hnl)).
    case_decide; [contradiction|]. case_decide; [contradiction|]. reflexivity.
  - intros rest. unfold testkit.process.
    rewrite (processLoop_line _ _ _ _ _ _ _ (ReadString_end rest)).
    case_decide as Hb; [discriminate Hb|]. case_decide as He; [|now destruct He].
    reflexivity.
  - intros lines rest Hplain.
    destruct (process_begun lines (testkit.requestBegin ++ rest) b Hplain) as (k & ->).
    rewrite (processLoop_line _ _ _ _ _ _ _ (ReadString_begin rest)).
    case_decide as Hb; [|now destruct Hb]. reflexivity.
Qed.

(** X14: A framed request is handled once, with the text between the markers,
    and what follows it is left on the socket. *)
Theorem process_handles_the_framed_request
        (lines : list testkit.text) (rest : testkit.text) (b : testkit.backend S) :
  Forall (fun l => testkit.plainLine l = true) lines ->
  testkit.process handleRequest (testkit.set_rd (testkit.framed lines ++ rest) b)
  = Some (match handleRequest (testkit.unlines lines) (testkit.set_rd rest b) with
          | inl msg => testkit.Panicked msg
          | inr b' => testkit.Returned true b'
          end).
Proof. apply process_framed. Qed.

(** X16: [serve] handles the requests of the input in order, each once, and
    returns when the input ends: for a handler [h] that neither panics nor
    touches the socket, serving the framed requests [reqs] (followed by an
    unfinished line) leaves the backend as handling them one after the
    other does, with nothing left to read. *)
Theorem serve_handles_requests_in_order
        (h : testkit.text -> testkit.backend S -> testkit.backend S)
        (reqs : list (list testkit.text)) (t : testkit.text) (b : testkit.backend S) :
  (forall request b', handleRequest request b' = inr (h request b')) ->
  (forall request r b', h request (testkit.set_rd r b') = testkit.set_rd r (h request b')) ->
  Forall (Forall (fun l => testkit.plainLine l = true)) reqs ->
  forallb (fun c => negb (Ascii.eqb c testkit.newline)) t = true ->
  testkit.serve handleRequest (Datatypes.S (length reqs))
    (testkit.set_rd (concat (map testkit.framed reqs) ++ t) b)
  = Some (testkit.Closed
            (testkit.set_rd []
               (fold_left (fun acc lines => h (testkit.unlines lines) acc) reqs b))).
Proof.
  intros Hh Hrd Hreqs Ht. revert b.
  induction Hreqs as [|lines reqs Hlines Hreqs IH]; intros b.
  - simpl. rewrite (process_end_of_input t b Ht). reflexivity.
  - cbn [map concat length fold_left]. rewrite <- app_assoc.
    cbn [testkit.serve]. rewrite (process_framed lines _ b Hlines), Hh, Hrd.
    apply IH.
Qed.

End ServingFacts.

(** ** The ids of the backend *)

Lemma wrapInt_small (z : Z) : - 2 ^ 63 <= z < 2 ^ 63 -> testkit.wrapInt z = z.
Proof.
  intros Hz. unfold testkit.wrapInt. rewrite Z.mod_small; lia.
Qed.



(** ** The transaction configuration of a request *)

(** X18: The backend hands the timeout of a request to the driver as it is:
    without one the driver's sentinel stays and the configuration is
    valid; with a timeout of [ms] milliseconds (in the range where the
    product does not wrap) the configuration holds [ms] milliseconds, and
    the driver's validation rejects it exactly when [ms] is negative.  The
    metadata of the request, when given, replace the default ones. *)
Theorem toTransactionConfigApply_validated
        (txMeta : option (list (string * Value))) (ms : Z) :
  - 2 ^ 63 < testkit.Millisecond * ms < 2 ^ 63 ->
  let none := applyConfigurers [testkit.toTransactionConfigApply txMeta None] in
  let some := applyConfigurers [testkit.toTransactionConfigApply txMeta (Some ms)] in
  Timeout none = MinInt
  /\ validateTransactionConfig none = None
  /\ Timeout some = testkit.Millisecond * ms
  /\ validateTransactionConfig some
     = (if Z.ltb ms 0
        then Some (UsageError (negativeTimeoutMessage (testkit.Millisecond * ms)))
        else None)
  /\ Metadata some = default [] txMeta.
Proof.
  intros Hrange none some. subst none some.
  unfold applyConfigurers, testkit.toTransactionConfigApply. cbn [fold_left].
  rewrite wrapInt_small by (unfold MinInt in *; lia).
  assert (Hne : (testkit.Millisecond * ms =? MinInt) = false)
    by (apply Z.eqb_neq; unfold MinInt; lia).
  rewrite Hne, Z.eqb_refl. cbn [negb Timeout Metadata defaultTransactionConfig].
  split; [reflexivity|]. split; [reflexivity|]. split; [reflexivity|].
  split; [|now destruct txMeta].
  unfold validateTransactionConfig. cbn [Timeout]. rewrite Hne. cbn [negb andb].
  unfold testkit.Millisecond.
  destruct (Z.ltb_spec ms 0), (Z.ltb_spec (1000000 * ms) 0); try reflexivity; lia.
Qed.

(** ** Concrete runs of the further properties *)

Lemma BeginTransaction_owns_connection_witness :
  explicitTx (sess freshWorld) = None
  /\ exists es,
      calls (BeginTransaction Background [] freshWorld).2
      = calls (finishPendingAutocommit Background freshWorld).2 ++ es
      /\ autocommitTx (sess (BeginTransaction Background [] freshWorld).2) = None.
Proof.
  split; [reflexivity|].
  destruct (BeginTransaction_owns_connection_iff_success Background [] freshWorld eq_refl)
    as (es & Hcalls & _ & Hauto & _).
  exists es. split; [exact Hcalls|exact Hauto].
Defined.

Lemma Run_owns_connection_witness :
  explicitTx (sess freshWorld) = None
  /\ exists es,
      calls (Run Background "RETURN 1" [] [] freshWorld).2
      = calls (finishPendingAutocommit Background freshWorld).2 ++ es
      /\ explicitTx (sess (Run Background "RETURN 1" [] [] freshWorld).2) = None.
Proof.
  split; [reflexivity|].
  destruct (Run_owns_connection_iff_success Background "RETURN 1" [] [] freshWorld eq_refl)
    as (es & Hcalls & _ & Hexp & _).
  exists es. split; [exact Hcalls|exact Hexp].
Defined.

Lemma pending_autocommit_bookmark_witness :
  explicitTx (sess autocommitWorld) = None
  /\ autocommitTx (sess autocommitWorld) = Some auto0
  /\ exists es,
      calls (runRetriable 3 Background WriteMode scriptedWork [] autocommitWorld).2
      = calls autocommitWorld
        ++ [CallConsume Background 1%nat 3%nat None; CallBookmark 1%nat "bm-stream";
            CallReturn Background 1%nat None] ++ es
      /\ Forall (fun cfg => tc_Bookmarks cfg = ["bm-stream"%string]) (txBeginConfigs es).
Proof.
  split; [reflexivity|]. split; [reflexivity|].
  destruct (pending_autocommit_bookmark_is_carried
              Background [] "RETURN 1" [] 3 WriteMode scriptedWork autocommitWorld auto0
              eq_refl eq_refl) as (_ & _ & es & Hcalls & Hcfg).
  exists es. split; [exact Hcalls|exact Hcfg].
Defined.

Lemma process_framed_request_witness :
  Forall (fun l => testkit.plainLine l = true) [String.list_ascii_of_string "{}"]
  /\ testkit.process (fun request b => inr (testkit.noting request b))
       (testkit.set_rd
          (testkit.framed [String.list_ascii_of_string "{}"]
           ++ String.list_ascii_of_string "#req")
          (testkit.newBackend [] []))
     = Some (testkit.Returned true
               (testkit.mkBackend (String.list_ascii_of_string "#req") ∅ 0
                  [String.list_ascii_of_string "{}" ++ [testkit.newline]])).
Proof.
  assert (Hplain : Forall (fun l => testkit.plainLine l = true)
                          [String.list_ascii_of_string "{}"])
    by (repeat constructor).
  split; [exact Hplain|].
  exact (process_handles_the_framed_request
           (fun request b => inr (testkit.noting request b))
           [String.list_ascii_of_string "{}"] (String.list_ascii_of_string "#req")
           (testkit.newBackend [] []) Hplain).
Defined.

Lemma serve_in_order_witness :
  testkit.serve (fun request b => inr (testkit.noting request b)) 3
    (testkit.set_rd
       (concat (map testkit.framed [[String.list_ascii_of_string "a"];
                                    [String.list_ascii_of_string "b"]])
        ++ String.list_ascii_of_string "#req")
       (testkit.newBackend [] []))
  = Some (testkit.Closed
            (testkit.mkBackend [] ∅ 0
               [String.list_ascii_of_string "a" ++ [testkit.newline];
                String.list_ascii_of_string "b" ++ [testkit.newline]])).
Proof.
  exact (serve_handles_requests_in_order
           (fun request b => inr (testkit.noting request b)) testkit.noting
           [[String.list_ascii_of_string "a"]; [String.list_ascii_of_string "b"]]
           (String.list_ascii_of_string "#req") (testkit.newBackend [] [])
           (fun _ _ => eq_refl) (fun _ _ _ => eq_refl)
           ltac:(repeat constructor) eq_refl).
Defined.


Lemma toTransactionConfigApply_witness :
  - 2 ^ 63 < testkit.Millisecond * (-5) < 2 ^ 63
  /\ validateTransactionConfig
       (applyConfigurers [testkit.toTransactionConfigApply None (Some (-5))])
     = Some (UsageError "Negative transaction timeouts are not allowed. Given: -5000000").
Proof.
  assert (Hrange : - 2 ^ 63 < testkit.Millisecond * (-5) < 2 ^ 63)
    by (unfold testkit.Millisecond; lia).
  split; [exact Hrange|].
  destruct (toTransactionConfigApply_validated None (-5) Hrange) as (_ & _ & _ & Hval & _).
  exact Hval.
Defined.
